(** * tele_app: the session registry and the request handlers

    A shallow embedding of [src/tele_app.py].  The program is a FastAPI
    gateway in front of the Telethon client library.  Its own logic is

    - [TelegramClientManager]: a dict from session handle to live client,
      plus the process-wide credentials;
    - one handler per endpoint, which looks the client up, forwards one or
      two calls to the library and maps exceptions to HTTP statuses.

    The library is an external collaborator: every call into it is recorded
    in a log and answered by an environment [env], a function of the log so
    far.  Coroutines are run to completion one after the other (no
    interleaving of tasks is modelled). *)

From Stdlib Require Import String Ascii ZArith List Bool Arith.
From Stdlib Require Import DecimalString.
Import ListNotations.

Local Open Scope string_scope.
Local Open Scope list_scope.

(** ** Python dicts

    A Python [dict] keeps its keys in insertion order, and
    [disconnect_all] walks [self.clients.values()] in that order, so the
    store is an association list rather than an unordered finite map.
    [set] overwrites in place when the key is there and appends otherwise
    ([d[k] = v]); [del] drops the key ([del d[k]]). *)

Module Dict.
Section Dict.
Context {V : Type}.

Definition t := list (string * V).

Definition empty : t := [].

Fixpoint get (k : string) (d : t) : option V :=
  match d with
  | [] => None
  | (k', v) :: d' => if String.eqb k k' then Some v else get k d'
  end.

(** [k in d] *)
Definition mem (k : string) (d : t) : bool :=
  match get k d with Some _ => true | None => false end.

(** [d[k] = v] *)
Fixpoint set (k : string) (v : V) (d : t) : t :=
  match d with
  | [] => [(k, v)]
  | (k', v') :: d' =>
      if String.eqb k k' then (k, v) :: d' else (k', v') :: set k v d'
  end.

(** [del d[k]] *)
Definition del (k : string) (d : t) : t :=
  filter (fun kv => negb (String.eqb k (fst kv))) d.

(** [d.values()] *)
Definition values (d : t) : list V := map snd d.

Definition keys (d : t) : list string := map fst d.

(** [d.clear()] *)
Definition clear (d : t) : t := [].

End Dict.
Arguments t : clear implicits.
End Dict.

(** ** Values that cross the HTTP boundary *)

(** The JSON bodies the handlers return. *)
#[warnings="-register-all"]
Inductive Json :=
| JNull
| JBool (b : bool)
| JInt (z : Z)
| JStr (s : string)
| JObj (fields : list (string * Json)).

(** The exceptions the program raises or catches by class.  [ValueError]
    and [HTTPException] are raised by the program itself; the two Telethon
    errors are the ones [verify_otp] catches by name; [LibraryError] is any
    other [Exception] coming out of the library. *)
Inductive Exn :=
| ValueError (msg : string)
| HTTPException (status_code : Z) (detail : string)
| SessionPasswordNeededError (msg : string)
| PhoneCodeInvalidError (msg : string)
| LibraryError (msg : string).

(** Objects are known by identity; a counter hands out fresh ones. *)
Definition Obj := nat.

(** ** Request models (the pydantic classes) *)

Module APICredentials.
Record t := mk { app_id : Z; app_hash : string }.
End APICredentials.

Module BotToken.
Record t := mk { token : string }.
End BotToken.

Module MessageRequest.
Record t := mk { session_hash : string; recipient : string; message : string }.
End MessageRequest.

Module SessionHash.
Record t := mk { hash : string }.
End SessionHash.

Module PhoneNumber.
Record t := mk { phone : string }.
End PhoneNumber.

Module OTPVerification.
Record t := mk { phone : string; code : string; phone_code_hash : string }.
End OTPVerification.

Module StoryRequest.
Record t := mk { file_path : string; spoiler : bool; ttl_seconds : Z }.
End StoryRequest.

Module TwoFAPassword.
Record t := mk { password : string; session_hash : string }.
End TwoFAPassword.

(** ** The Telethon library, seen from the program *)

Module Telethon.

(** What [client.get_me()] returns, as far as the program reads it. *)
Record User := mkUser
  { id : Z; first_name : string; username : option string; bot : bool }.

(** What [client.send_code_request] returns. *)
Record SentCode := mkSentCode { phone_code_hash : string }.

(** What [client.send_message] returns. *)
Record Message := mkMessage { message_id : Z }.

(** The target handed to [client.send_message]: either the
    [InputPeerUser(recipient_id, 0)] the handler builds itself, or
    whatever [client.get_entity] resolved (an opaque library value). *)
Inductive Entity :=
| InputPeerUser (user_id : Z) (access_hash : Z)
| Resolved (entity : Z).

(** The calls the program makes, indexed by the type of their result. *)
Inductive Call : Type -> Type :=
| StringSession (session : Obj) (string : option string) : Call unit
| TelegramClient (client session : Obj)
    (api_id : option Z) (api_hash : option string) : Call unit
| connect (client : Obj) : Call unit
| start (client : Obj) (bot_token : string) : Call unit
| save (session : Obj) : Call string
| on_NewMessage (client : Obj) (pattern reply : string) : Call unit
| disconnect (client : Obj) : Call unit
| send_code_request (client : Obj) (phone : string) (force_sms : bool)
    : Call SentCode
| sign_in (client : Obj) (phone code phone_code_hash : string) : Call unit
| sign_in_password (client : Obj) (password : string) : Call unit
| get_me (client : Obj) : Call User
| is_user_authorized (client : Obj) : Call bool
| upload_file (client : Obj) (file_path : string) : Call Z
| SendStoryRequest (client : Obj) (peer : Z) (file : Z)
    (spoiler : bool) (ttl_seconds : Z) : Call unit
| get_entity (client : Obj) (name : string) : Call Z
| send_message (client : Obj) (entity : Entity) (message : string)
    : Call Message.

(** A call together with what came back: an exception or a value. *)
Inductive Event :=
| Ev {A : Type} (call : Call A) (reply : Exn + A).

(** The library and the network behind it: the reply to a call, given
    everything that happened before. *)
Definition Env := forall A : Type, list Event -> Call A -> Exn + A.

End Telethon.

(** ** Program state *)

(** [class TelegramClientManager]; [None] is the value [__init__] gives the
    two credentials. *)
Record TelegramClientManager := mkManager
  { clients : Dict.t Obj;
    app_id : option Z;
    app_hash : option string }.

(** The module-level [client_manager], the allocator of object identities
    and the log of library calls. *)
Record World := mkWorld
  { client_manager : TelegramClientManager;
    next_obj : Obj;
    log : list Telethon.Event }.

(** [TelegramClientManager()] at import time. *)
Definition init_manager : TelegramClientManager :=
  {| clients := Dict.empty; app_id := None; app_hash := None |}.

Definition init_world : World :=
  {| client_manager := init_manager; next_obj := 0; log := [] |}.

Definition with_clients (d : Dict.t Obj) (w : World) : World :=
  {| client_manager :=
       {| clients := d;
          app_id := app_id (client_manager w);
          app_hash := app_hash (client_manager w) |};
     next_obj := next_obj w;
     log := log w |}.

Definition with_credentials (i : option Z) (h : option string) (w : World)
  : World :=
  {| client_manager :=
       {| clients := clients (client_manager w); app_id := i; app_hash := h |};
     next_obj := next_obj w;
     log := log w |}.

Definition with_log (l : list Telethon.Event) (w : World) : World :=
  {| client_manager := client_manager w; next_obj := next_obj w; log := l |}.

(** Python truthiness of the values the program tests with [not x] or
    [x and ...]. *)
Definition truthy_int (x : option Z) : bool :=
  match x with Some z => negb (Z.eqb z 0) | None => false end.

Definition truthy_str (x : option string) : bool :=
  match x with Some s => negb (String.eqb s "") | None => false end.

(** ** The monad of the program: state that survives a raise *)

Definition M (A : Type) : Type := World -> (Exn + A) * World.

Definition ret {A} (a : A) : M A := fun w => (inr a, w).

Definition raise {A} (e : Exn) : M A := fun w => (inl e, w).

Definition bind {A B} (m : M A) (k : A -> M B) : M B :=
  fun w =>
    match m w with
    | (inr a, w') => k a w'
    | (inl e, w') => (inl e, w')
    end.

(** [try: m except ...: handler]; a handler re-raises what it does not
    catch. *)
Definition try_except {A} (m : M A) (handler : Exn -> M A) : M A :=
  fun w =>
    match m w with
    | (inr a, w') => (inr a, w')
    | (inl e, w') => handler e w'
    end.

Definition get_manager : M TelegramClientManager :=
  fun w => (inr (client_manager w), w).

Definition modify (f : World -> World) : M unit := fun w => (inr tt, f w).

(** A fresh object identity. *)
Definition new_obj : M Obj :=
  fun w =>
    (inr (next_obj w),
     {| client_manager := client_manager w;
        next_obj := S (next_obj w);
        log := log w |}).

Declare Scope py_scope.
Delimit Scope py_scope with py.
Notation "x <- m ;; k" := (bind m (fun x => k))
  (at level 61, m at next level, right associativity) : py_scope.
Notation "m ;; k" := (bind m (fun _ => k))
  (at level 61, right associativity) : py_scope.
Local Open Scope py_scope.

Fixpoint for_each {A} (l : list A) (body : A -> M unit) : M unit :=
  match l with
  | [] => ret tt
  | x :: l' => body x ;; for_each l' body
  end.

(** The status FastAPI answers with: 200 for a returned body, the status of
    an [HTTPException], 500 for any other exception that escapes. *)
Definition http_status {A} (r : Exn + A) : Z :=
  match r with
  | inr _ => 200
  | inl (HTTPException s _) => s
  | inl _ => 500
  end.

(** ** The program *)

Section Program.

(** The library behind the program. *)
Variable env : Telethon.Env.

(** Python's builtin [int] applied to a [str]: [None] stands for the
    [ValueError] it raises on a string that is not an integer literal. *)
Variable int_ : string -> option Z.

(** [str(e)] of an [HTTPException] (Starlette's [__str__]), which the
    catch-all handlers apply to whatever they caught. *)
Variable http_str : Z -> string -> string.

(** [str(e)] *)
Definition str_exn (e : Exn) : string :=
  match e with
  | ValueError msg => msg
  | HTTPException s d => http_str s d
  | SessionPasswordNeededError msg => msg
  | PhoneCodeInvalidError msg => msg
  | LibraryError msg => msg
  end.

(** One call into the library: ask the environment, record the event. *)
Definition call {A} (c : Telethon.Call A) : M A :=
  fun w =>
    let r := env A (log w) c in
    (r, with_log (log w ++ [Telethon.Ev c r]) w).

(** *** [TelegramClientManager] *)

(** Lines 60-63: registers the handler replying "pong" to "/ping". *)
Definition add_message_handler (client : Obj) : M unit :=
  call (Telethon.on_NewMessage client "/ping" "pong").

(** Lines 65-68. *)
Definition get_client (session_hash : string) : M Obj :=
  self <- get_manager ;;
  match Dict.get session_hash (clients self) with
  | None => raise (HTTPException 400 "Session not found")
  | Some client => ret client
  end.

(** Lines 70-84.  [session_hash] defaults to [None].  [registered] is
    the test [session_hash and session_hash in self.clients] of line 74,
    which only a string can pass. *)
Definition create_client (session_hash : option string) : M string :=
  self <- get_manager ;;
  if negb (truthy_int (app_id self)) || negb (truthy_str (app_hash self))
  then raise (ValueError "API credentials not set")
  else
    let registered :=
      match session_hash with
      | Some h =>
          if truthy_str session_hash && Dict.mem h (clients self)
          then Some h else None
      | None => None
      end in
    match registered with
    | Some h => ret h
    | None =>
        session <- new_obj ;;
        call (Telethon.StringSession session
                (if truthy_str session_hash then session_hash else None)) ;;
        client <- new_obj ;;
        call (Telethon.TelegramClient client session
                (app_id self) (app_hash self)) ;;
        call (Telethon.connect client) ;;
        new_hash <- call (Telethon.save session) ;;
        modify (fun w =>
          with_clients
            (Dict.set new_hash client (clients (client_manager w))) w) ;;
        add_message_handler client ;;
        ret new_hash
    end.

(** Lines 86-97. *)
Definition create_bot_client (bot_token : string) : M string :=
  self <- get_manager ;;
  if negb (truthy_int (app_id self)) || negb (truthy_str (app_hash self))
  then raise (ValueError "API credentials not set")
  else
    session <- new_obj ;;
    call (Telethon.StringSession session None) ;;
    client <- new_obj ;;
    call (Telethon.TelegramClient client session
            (app_id self) (app_hash self)) ;;
    call (Telethon.start client bot_token) ;;
    new_hash <- call (Telethon.save session) ;;
    modify (fun w =>
      with_clients
        (Dict.set new_hash client (clients (client_manager w))) w) ;;
    add_message_handler client ;;
    ret new_hash.

(** Lines 99-102. *)
Definition remove_client (session_hash : string) : M unit :=
  self <- get_manager ;;
  match Dict.get session_hash (clients self) with
  | Some client =>
      call (Telethon.disconnect client) ;;
      modify (fun w =>
        with_clients (Dict.del session_hash (clients (client_manager w))) w)
  | None => ret tt
  end.

(** Lines 104-107. *)
Definition disconnect_all : M unit :=
  self <- get_manager ;;
  for_each (Dict.values (clients self))
    (fun client => call (Telethon.disconnect client)) ;;
  modify (fun w => with_clients (Dict.clear (clients (client_manager w))) w).

(** *** The handlers *)

(** Lines 132-136. *)
Definition set_api_credentials (credentials : APICredentials.t) : M Json :=
  modify (with_credentials
            (Some (APICredentials.app_id credentials))
            (Some (APICredentials.app_hash credentials))) ;;
  ret (JObj [("message", JStr "API credentials set successfully")]).

(** Lines 179-187. *)
Definition verify_2fa (two_fa : TwoFAPassword.t) : M Json :=
  try_except
    (client <- get_client (TwoFAPassword.session_hash two_fa) ;;
     call (Telethon.sign_in_password client (TwoFAPassword.password two_fa)) ;;
     user <- call (Telethon.get_me client) ;;
     ret (JObj [("message",
                 JStr ("Authenticated as " ++ Telethon.first_name user)%string);
                ("session_hash", JStr (TwoFAPassword.session_hash two_fa))]))
    (fun e => raise (HTTPException 500 (str_exn e))).

(** Lines 189-200. *)
Definition create_session (phone_number : PhoneNumber.t) : M Json :=
  self <- get_manager ;;
  if negb (truthy_int (app_id self)) || negb (truthy_str (app_hash self))
  then raise (HTTPException 400
    "API credentials not set. Please call /set_api_credentials first.")
  else
    try_except
      (session_hash <- create_client None ;;
       client <- get_client session_hash ;;
       result <- call (Telethon.send_code_request client
                         (PhoneNumber.phone phone_number) true) ;;
       ret (JObj [("session_hash", JStr session_hash);
                  ("phone_code_hash",
                   JStr (Telethon.phone_code_hash result))]))
      (fun e => raise (HTTPException 500 (str_exn e))).

(** Lines 202-218. *)
Definition create_bot_session (bot_token : BotToken.t) : M Json :=
  try_except
    (session_hash <- create_bot_client (BotToken.token bot_token) ;;
     client <- get_client session_hash ;;
     bot_info <- call (Telethon.get_me client) ;;
     ret (JObj [("session_hash", JStr session_hash);
                ("bot_info",
                 JObj [("id", JInt (Telethon.id bot_info));
                       ("first_name", JStr (Telethon.first_name bot_info));
                       ("username",
                        match Telethon.username bot_info with
                        | Some u => JStr u
                        | None => JNull
                        end);
                       ("bot", JBool (Telethon.bot bot_info))])]))
    (fun e => raise (HTTPException 500 (str_exn e))).

(** Lines 220-239. *)
Definition verify_otp (otp_verification : OTPVerification.t)
    (session : SessionHash.t) : M Json :=
  try_except
    (client <- get_client (SessionHash.hash session) ;;
     call (Telethon.sign_in client
             (OTPVerification.phone otp_verification)
             (OTPVerification.code otp_verification)
             (OTPVerification.phone_code_hash otp_verification)) ;;
     user <- call (Telethon.get_me client) ;;
     ret (JObj [("message",
                 JStr ("Authenticated as " ++ Telethon.first_name user)%string);
                ("session_hash", JStr (SessionHash.hash session))]))
    (fun e =>
       match e with
       | SessionPasswordNeededError _ =>
           ret (JObj [("message",
                       JStr "Two-step verification is enabled. Please provide the password.");
                      ("session_hash", JStr (SessionHash.hash session))])
       | PhoneCodeInvalidError _ =>
           raise (HTTPException 401 "Invalid code provided.")
       | _ => raise (HTTPException 500 (str_exn e))
       end).

(** Lines 241-259.  The request the handler sends always carries the same
    [privacy_rules], so the call records only what varies. *)
Definition send_story (story_request : StoryRequest.t)
    (session : SessionHash.t) : M Json :=
  try_except
    (client <- get_client (SessionHash.hash session) ;;
     authorized <- call (Telethon.is_user_authorized client) ;;
     (if negb authorized
      then raise (HTTPException 401 "Unauthorized. Please authenticate first.")
      else ret tt) ;;
     me <- call (Telethon.get_me client) ;;
     file <- call (Telethon.upload_file client
                     (StoryRequest.file_path story_request)) ;;
     call (Telethon.SendStoryRequest client (Telethon.id me) file
             (StoryRequest.spoiler story_request)
             (StoryRequest.ttl_seconds story_request)) ;;
     ret (JObj [("message", JStr "Story sent successfully")]))
    (fun e => raise (HTTPException 500 (str_exn e))).

(** Lines 261-281.  The inner [try] covers [int(...)] and the
    construction of [InputPeerUser]; its handler catches [ValueError]
    only.  The text of the [ValueError] that [int] raises is never read. *)
Definition send_message (message_request : MessageRequest.t) : M Json :=
  try_except
    (client <- get_client (MessageRequest.session_hash message_request) ;;
     entity <-
       try_except
         (recipient_id <-
            match int_ (MessageRequest.recipient message_request) with
            | Some n => ret n
            | None => raise (ValueError "invalid literal for int() with base 10")
            end ;;
          ret (Telethon.InputPeerUser recipient_id 0))
         (fun e =>
            match e with
            | ValueError _ =>
                resolved <- call (Telethon.get_entity client
                              (MessageRequest.recipient message_request)) ;;
                ret (Telethon.Resolved resolved)
            | _ => raise e
            end) ;;
     result <- call (Telethon.send_message client entity
                       (MessageRequest.message message_request)) ;;
     ret (JObj [("message", JStr "Message sent successfully");
                ("message_id", JInt (Telethon.message_id result))]))
    (fun e =>
       match e with
       | ValueError _ => raise (HTTPException 400 (str_exn e))
       | _ => raise (HTTPException 500 (str_exn e))
       end).

End Program.

(** ** Concrete instances, for running the program *)

(** [int(s)] on ASCII text: blanks around, an optional sign, then decimal
    digits in groups separated by single underscores.  Python's [int] also
    reads the decimal digits and blanks of other scripts, and recent
    versions refuse literals beyond a length limit; neither is modelled, and
    nothing is proved of this function: the theorems take [int_] as a
    parameter, and the concrete runs use it on short ASCII text only. *)
Module PyInt.

Definition is_space (c : ascii) : bool :=
  let n := nat_of_ascii c in
  ((9 <=? n) && (n <=? 13) || (n =? 32))%nat.

Definition digit (c : ascii) : option Z :=
  let n := nat_of_ascii c in
  if ((48 <=? n) && (n <=? 57))%nat then Some (Z.of_nat (n - 48)) else None.

Fixpoint lstrip (l : list ascii) : list ascii :=
  match l with
  | c :: l' => if is_space c then lstrip l' else l
  | [] => []
  end.

Definition strip (l : list ascii) : list ascii :=
  rev (lstrip (rev (lstrip l))).

(** [after_digit] says whether the previous character was a digit: only
    then may an underscore or the end of the text follow. *)
Fixpoint digits (l : list ascii) (acc : Z) (after_digit : bool) : option Z :=
  match l with
  | [] => if after_digit then Some acc else None
  | c :: l' =>
      match digit c with
      | Some d => digits l' (10 * acc + d) true
      | None =>
          if Ascii.eqb c "_" && after_digit then digits l' acc false else None
      end
  end.

Definition int (s : string) : option Z :=
  match strip (list_ascii_of_string s) with
  | c :: l =>
      if Ascii.eqb c "-" then option_map Z.opp (digits l 0 false)
      else if Ascii.eqb c "+" then digits l 0 false
      else digits (c :: l) 0 false
  | [] => None
  end.

End PyInt.

(** Starlette's [HTTPException.__str__]: ["{status_code}: {detail}"]. *)
Definition starlette_str (status_code : Z) (detail : string) : string :=
  (NilZero.string_of_int (Z.to_int status_code) ++ ": " ++ detail)%string.

(** The session string a well-behaved library saves for a session: the
    version character, then something of the session's own. *)
Definition handle_of (session : Obj) : string :=
  ("1" ++ NilZero.string_of_uint (Nat.to_uint session))%string.

(** A library in which every call succeeds. *)
Definition reply_ok (A : Type) (c : Telethon.Call A) : A :=
  match c in Telethon.Call T return T with
  | Telethon.StringSession _ _ => tt
  | Telethon.TelegramClient _ _ _ _ => tt
  | Telethon.connect _ => tt
  | Telethon.start _ _ => tt
  | Telethon.save session => handle_of session
  | Telethon.on_NewMessage _ _ _ => tt
  | Telethon.disconnect _ => tt
  | Telethon.send_code_request _ _ _ => Telethon.mkSentCode "c0de"
  | Telethon.sign_in _ _ _ _ => tt
  | Telethon.sign_in_password _ _ => tt
  | Telethon.get_me _ => Telethon.mkUser 777 "Ada" (Some "ada") false
  | Telethon.is_user_authorized _ => true
  | Telethon.upload_file _ _ => 5%Z
  | Telethon.SendStoryRequest _ _ _ _ _ => tt
  | Telethon.get_entity _ _ => 42%Z
  | Telethon.send_message _ _ _ => Telethon.mkMessage 1
  end.

(** [env_over special]: the replies of [special] where it has one, success
    everywhere else. *)
Definition env_over
    (special : forall A, Telethon.Call A -> option (Exn + A)) : Telethon.Env :=
  fun A _ c =>
    match special A c with
    | Some r => r
    | None => inr (reply_ok A c)
    end.

Definition env_ok : Telethon.Env := env_over (fun _ _ => None).

(** The account has two-step verification: [sign_in] with a code raises. *)
Definition env_two_factor : Telethon.Env :=
  env_over (fun A c =>
    match c in Telethon.Call T return option (Exn + T) with
    | Telethon.sign_in _ _ _ _ =>
        Some (inl (SessionPasswordNeededError
                     "Two-steps verification is enabled and a password is required"))
    | _ => None
    end).

(** The code is wrong: [sign_in] raises. *)
Definition env_bad_code : Telethon.Env :=
  env_over (fun A c =>
    match c in Telethon.Call T return option (Exn + T) with
    | Telethon.sign_in _ _ _ _ =>
        Some (inl (PhoneCodeInvalidError "The phone code entered was invalid"))
    | _ => None
    end).

(** Nobody has signed in on any client. *)
Definition env_unauthorized : Telethon.Env :=
  env_over (fun A c =>
    match c in Telethon.Call T return option (Exn + T) with
    | Telethon.is_user_authorized _ => Some (inr false)
    | _ => None
    end).

(** A session that saves to the empty string (Telethon's [save] does so
    for a session without an authorization key). *)
Definition env_blank : Telethon.Env :=
  env_over (fun A c =>
    match c in Telethon.Call T return option (Exn + T) with
    | Telethon.save _ => Some (inr "")
    | _ => None
    end).

(** The library fails to disconnect the client with identity [3]. *)
Definition env_disconnect_fails : Telethon.Env :=
  env_over (fun A c =>
    match c in Telethon.Call T return option (Exn + T) with
    | Telethon.disconnect 3 => Some (inl (LibraryError "Connection reset"))
    | _ => None
    end).

(** The network is down: [connect] raises. *)
Definition env_offline : Telethon.Env :=
  env_over (fun A c =>
    match c in Telethon.Call T return option (Exn + T) with
    | Telethon.connect _ => Some (inl (LibraryError "Connection refused"))
    | _ => None
    end).

(** Registering an event handler fails. *)
Definition env_handler_fails : Telethon.Env :=
  env_over (fun A c =>
    match c in Telethon.Call T return option (Exn + T) with
    | Telethon.on_NewMessage _ _ _ =>
        Some (inl (LibraryError "handler rejected"))
    | _ => None
    end).

(** No entity goes by the name that was asked for: [get_entity] raises the
    [ValueError] Telethon has for that. *)
Definition env_no_entity : Telethon.Env :=
  env_over (fun A c =>
    match c in Telethon.Call T return option (Exn + T) with
    | Telethon.get_entity _ _ =>
        Some (inl (ValueError "Cannot find any entity corresponding to the name"))
    | _ => None
    end).

(** The code request is refused (too many attempts). *)
Definition env_flood : Telethon.Env :=
  env_over (fun A c =>
    match c in Telethon.Call T return option (Exn + T) with
    | Telethon.send_code_request _ _ _ =>
        Some (inl (LibraryError "A wait of 3600 seconds is required"))
    | _ => None
    end).

(** The password of the second step is wrong. *)
Definition env_bad_password : Telethon.Env :=
  env_over (fun A c =>
    match c in Telethon.Call T return option (Exn + T) with
    | Telethon.sign_in_password _ _ =>
        Some (inl (LibraryError "The password you entered is invalid"))
    | _ => None
    end).

(** The world an operation leaves behind, and what it returned. *)
Definition exec {A} (m : M A) (w : World) : World := snd (m w).
Definition result {A} (m : M A) (w : World) : Exn + A := fst (m w).

(** Credentials set, one session created and registered. *)
Definition world_one_session : World :=
  exec (create_client env_ok None)
    (exec (set_api_credentials (APICredentials.mk 1 "x")) init_world).

(** The same, after the credentials were overwritten with [app_id = 0]. *)
Definition world_credentials_reset : World :=
  exec (set_api_credentials (APICredentials.mk 0 "x")) world_one_session.

(** Credentials set, one session created whose handle is the empty string. *)
Definition world_blank_handle : World :=
  exec (create_client env_blank None)
    (exec (set_api_credentials (APICredentials.mk 1 "x")) init_world).

(** Two sessions, a user's and a bot's. *)
Definition world_two_sessions : World :=
  exec (create_bot_client env_ok "123:abc") world_one_session.

(** Credentials set, no session yet. *)
Definition world_configured : World :=
  exec (set_api_credentials (APICredentials.mk 1 "x")) init_world.

(** ** Vocabulary of the statements *)

(** The world after a constructor ran to its end: two objects allocated
    (the session, then the client), five calls answered (the two
    constructions, [first] which is [connect] or [start], [save], the
    handler registration), and the client written under the handle [h] that
    [save] returned. *)
Definition opened (w : World) (first : Telethon.Call unit)
    (arg : option string) (h : string) : World :=
  {| client_manager :=
       {| clients := Dict.set h (S (next_obj w)) (clients (client_manager w));
          app_id := app_id (client_manager w);
          app_hash := app_hash (client_manager w) |};
     next_obj := S (S (next_obj w));
     log := log w ++
       [Telethon.Ev (Telethon.StringSession (next_obj w) arg) (inr tt);
        Telethon.Ev (Telethon.TelegramClient (S (next_obj w)) (next_obj w)
                       (app_id (client_manager w)) (app_hash (client_manager w)))
          (inr tt);
        Telethon.Ev first (inr tt);
        Telethon.Ev (Telethon.save (next_obj w)) (inr h);
        Telethon.Ev (Telethon.on_NewMessage (S (next_obj w)) "/ping" "pong")
          (inr tt)] |}.

(** The same world, with [registration] as the reply to the handler
    registration: the client is in the store when that call is made. *)
Definition registered_with (w : World) (first : Telethon.Call unit)
    (arg : option string) (h : string) (registration : Exn + unit) : World :=
  {| client_manager :=
       {| clients := Dict.set h (S (next_obj w)) (clients (client_manager w));
          app_id := app_id (client_manager w);
          app_hash := app_hash (client_manager w) |};
     next_obj := S (S (next_obj w));
     log := log w ++
       [Telethon.Ev (Telethon.StringSession (next_obj w) arg) (inr tt);
        Telethon.Ev (Telethon.TelegramClient (S (next_obj w)) (next_obj w)
                       (app_id (client_manager w)) (app_hash (client_manager w)))
          (inr tt);
        Telethon.Ev first (inr tt);
        Telethon.Ev (Telethon.save (next_obj w)) (inr h);
        Telethon.Ev (Telethon.on_NewMessage (S (next_obj w)) "/ping" "pong")
          registration] |}.

(** The event is the registration of an event handler. *)
Definition is_registration (ev : Telethon.Event) : bool :=
  match ev with
  | Telethon.Ev c _ =>
      match c with Telethon.on_NewMessage _ _ _ => true | _ => false end
  end.

(** The event is a [disconnect], whatever came back. *)
Definition is_disconnect (ev : Telethon.Event) : bool :=
  match ev with
  | Telethon.Ev c _ =>
      match c with Telethon.disconnect _ => true | _ => false end
  end.

(** [answers codes r]: the handler returned a body, or raised an
    [HTTPException] whose status is one of [codes]. *)
Definition answers (codes : list Z) (r : Exn + Json) : Prop :=
  match r with
  | inr _ => True
  | inl (HTTPException s _) => In s codes
  | inl _ => False
  end.

(** * Properties *)

(** ** Facts about dicts *)

Section DictFacts.
Context {V : Type}.
Implicit Types (d : Dict.t V) (k : string) (v : V).

Lemma dict_get_set_same k v d : Dict.get k (Dict.set k v d) = Some v.
Proof.
  induction d as [|[k' v'] d IH]; simpl.
  - now rewrite String.eqb_refl.
  - destruct (String.eqb k k') eqn:E; simpl.
    + now rewrite String.eqb_refl.
    + now rewrite E.
Qed.

Lemma dict_get_set_other k k' v d :
  k <> k' -> Dict.get k' (Dict.set k v d) = Dict.get k' d.
Proof.
  intros Hne. induction d as [|[k0 v0] d IH]; simpl.
  - destruct (String.eqb_spec k' k); congruence.
  - destruct (String.eqb_spec k k0) as [->|Hk]; simpl.
    + destruct (String.eqb_spec k' k0); congruence.
    + now rewrite IH.
Qed.

Lemma dict_get_del_same k d : Dict.get k (Dict.del k d) = None.
Proof.
  induction d as [|[k' v'] d IH]; simpl; auto.
  destruct (String.eqb k k') eqn:E; simpl; auto.
  now rewrite E.
Qed.

Lemma dict_get_del_other k k' d :
  k <> k' -> Dict.get k' (Dict.del k d) = Dict.get k' d.
Proof.
  intros Hne. induction d as [|[k0 v0] d IH]; simpl; auto.
  destruct (String.eqb_spec k k0) as [->|Hk]; simpl.
  - destruct (String.eqb_spec k' k0); congruence.
  - now rewrite IH.
Qed.

Lemma dict_del_absent k d : Dict.get k d = None -> Dict.del k d = d.
Proof.
  induction d as [|[k' v'] d IH]; simpl; auto.
  destruct (String.eqb k k'); simpl; intros H; [discriminate|].
  now rewrite IH.
Qed.

Lemma dict_get_in_values k v d : Dict.get k d = Some v -> In v (Dict.values d).
Proof.
  induction d as [|[k' v'] d IH]; simpl; [discriminate|].
  destruct (String.eqb k k'); intros H.
  - left. congruence.
  - right. auto.
Qed.

Lemma dict_get_in_keys k d : Dict.get k d <> None <-> In k (Dict.keys d).
Proof.
  induction d as [|[k' v'] d IH]; simpl; [tauto|].
  destruct (String.eqb_spec k k') as [->|Hk].
  - split; [auto | discriminate].
  - rewrite IH. split; [auto | intros [H|H]; congruence].
Qed.

Lemma dict_keys_set k v d :
  Dict.keys (Dict.set k v d)
  = if Dict.mem k d then Dict.keys d else Dict.keys d ++ [k].
Proof.
  unfold Dict.mem. induction d as [|[k' v'] d IH]; simpl; auto.
  destruct (String.eqb_spec k k') as [->|Hk]; simpl; auto.
  rewrite IH. now destruct (Dict.get k d).
Qed.

(** A store never holds a key twice: the list really is a dict. *)
Lemma dict_set_nodup k v d : NoDup (Dict.keys d) -> NoDup (Dict.keys (Dict.set k v d)).
Proof.
  intros H. rewrite dict_keys_set. unfold Dict.mem.
  destruct (Dict.get k d) eqn:E; auto.
  apply NoDup_app; auto.
  - repeat constructor. simpl. tauto.
  - intros a Ha [<-|[]]. apply dict_get_in_keys in Ha. congruence.
Qed.

Lemma dict_del_nodup k d : NoDup (Dict.keys d) -> NoDup (Dict.keys (Dict.del k d)).
Proof.
  induction d as [|[k' v'] d IH]; simpl; auto.
  intros H. inversion H as [|? ? Hnin Hnd]; subst.
  destruct (String.eqb_spec k k') as [->|Hk]; simpl; auto.
  constructor; auto.
  intros Hin. apply dict_get_in_keys in Hin.
  rewrite dict_get_del_other in Hin by assumption.
  apply dict_get_in_keys in Hin. contradiction.
Qed.

End DictFacts.

(** ** The session registry *)

Section Registry.

Variable env : Telethon.Env.

Implicit Types (w : World) (h : string).

Lemma call_eq {A} (c : Telethon.Call A) w :
  call env c w
  = (env A (log w) c, with_log (log w ++ [Telethon.Ev c (env A (log w) c)]) w).
Proof. reflexivity. Qed.

(** The guard of lines 71-72 and 87-88: with a falsy credential both
    constructors raise before they touch anything. *)
Lemma create_client_guard w session_hash :
  truthy_int (app_id (client_manager w))
    && truthy_str (app_hash (client_manager w)) = false ->
  create_client env session_hash w
  = (inl (ValueError "API credentials not set"), w).
Proof.
  intros H. unfold create_client, bind, get_manager, raise.
  rewrite <- negb_andb, H. reflexivity.
Qed.

Lemma create_bot_client_guard w bot_token :
  truthy_int (app_id (client_manager w))
    && truthy_str (app_hash (client_manager w)) = false ->
  create_bot_client env bot_token w
  = (inl (ValueError "API credentials not set"), w).
Proof.
  intros H. unfold create_bot_client, bind, get_manager, raise.
  rewrite <- negb_andb, H. reflexivity.
Qed.

(** C2.  While a credential still has the [None] that [__init__] gave it,
    [create_client] and [create_bot_client] raise
    [ValueError("API credentials not set")], whatever their argument, and
    the world is the one they started in: the same store, no object
    allocated, no call to the library logged. *)
Theorem create_without_credentials :
  forall w (session_hash : option string) (bot_token : string),
    app_id (client_manager w) = None \/ app_hash (client_manager w) = None ->
    create_client env session_hash w
      = (inl (ValueError "API credentials not set"), w)
    /\ create_bot_client env bot_token w
      = (inl (ValueError "API credentials not set"), w).
Proof.
  intros w session_hash bot_token H.
  assert (truthy_int (app_id (client_manager w))
            && truthy_str (app_hash (client_manager w)) = false) as G.
  { destruct H as [H|H]; rewrite H; simpl; auto using andb_false_r. }
  split; [apply create_client_guard | apply create_bot_client_guard]; exact G.
Qed.

(** C10.  After [set_api_credentials] stored [app_id = 0] or
    [app_hash = ""], both constructors raise the same
    [ValueError("API credentials not set")] and leave the world alone;
    the result is the one they give when the credentials are [None]. *)
Theorem create_with_falsy_credentials :
  forall w (credentials : APICredentials.t)
         (session_hash : option string) (bot_token : string),
    APICredentials.app_id credentials = 0%Z
      \/ APICredentials.app_hash credentials = "" ->
    create_client env session_hash (exec (set_api_credentials credentials) w)
      = (inl (ValueError "API credentials not set"),
         exec (set_api_credentials credentials) w)
    /\ create_bot_client env bot_token (exec (set_api_credentials credentials) w)
      = (inl (ValueError "API credentials not set"),
         exec (set_api_credentials credentials) w)
    /\ result (create_client env session_hash)
         (exec (set_api_credentials credentials) w)
       = result (create_client env session_hash) (with_credentials None None w)
    /\ result (create_bot_client env bot_token)
         (exec (set_api_credentials credentials) w)
       = result (create_bot_client env bot_token) (with_credentials None None w).
Proof.
  intros w [i s] session_hash bot_token H. simpl in H.
  assert (truthy_int (Some i) && truthy_str (Some s) = false) as G.
  { destruct H as [->| ->]; simpl; auto using andb_false_r. }
  unfold result.
  rewrite (create_client_guard (with_credentials None None w)) by reflexivity.
  rewrite (create_bot_client_guard (with_credentials None None w))
    by reflexivity.
  rewrite !create_client_guard, !create_bot_client_guard by exact G.
  auto.
Qed.

(** C1, as amended.  With both credentials truthy, [create_client] on a
    non-empty handle that is in the store returns that handle and leaves
    the world as it was: the store is the same and nothing was asked of
    the library, so no connection was opened. *)
Theorem create_client_registered :
  forall w h (client : Obj),
    truthy_int (app_id (client_manager w)) = true ->
    truthy_str (app_hash (client_manager w)) = true ->
    h <> "" ->
    Dict.get h (clients (client_manager w)) = Some client ->
    create_client env (Some h) w = (inr h, w).
Proof.
  intros w h client Hid Hhash Hne Hget.
  unfold create_client, bind, get_manager, ret, Dict.mem.
  rewrite Hid, Hhash, Hget. simpl.
  destruct (String.eqb_spec h ""); [contradiction | reflexivity].
Qed.

(** The lookup of the manager, on its own (lines 65-68).  [get_client] on
    a handle that is not in the store raises
    [HTTPException(status_code=400, detail="Session not found")] and
    changes nothing; on a handle in the store it returns the client
    stored under it.  A handle is absent in particular when none was ever
    issued (the initial world) and after [remove_client] returned.  What
    the caller of an endpoint sees of that 400 is another matter, settled
    with the handlers below. *)
Theorem get_client_spec :
  forall w h,
    (Dict.get h (clients (client_manager w)) = None ->
       get_client h w = (inl (HTTPException 400 "Session not found"), w)
       /\ http_status (result (get_client h) w) = 400%Z)
    /\ (forall client : Obj,
          Dict.get h (clients (client_manager w)) = Some client ->
          get_client h w = (inr client, w))
    /\ result (get_client h) init_world
       = inl (HTTPException 400 "Session not found")
    /\ (result (remove_client env h) w = inr tt ->
        result (get_client h) (exec (remove_client env h) w)
        = inl (HTTPException 400 "Session not found")).
Proof.
  intros w h. unfold get_client, result, exec, bind, get_manager, raise, ret.
  split; [|split; [|split]].
  - intros ->. split; reflexivity.
  - now intros client ->.
  - reflexivity.
  - unfold remove_client, bind, get_manager, ret, modify, call. simpl.
    destruct (Dict.get h (clients (client_manager w))) as [client|] eqn:E;
      simpl.
    + destruct (env unit (log w) (Telethon.disconnect client)); simpl;
        [discriminate|].
      intros _. now rewrite dict_get_del_same.
    + intros _. now rewrite E.
Qed.

(** When the library fails to disconnect, [remove_client] passes the
    exception on and the entry stays. *)
Lemma remove_client_raise w h (client : Obj) (e : Exn) :
  Dict.get h (clients (client_manager w)) = Some client ->
  env unit (log w) (Telethon.disconnect client) = inl e ->
  remove_client env h w
  = (inl e, with_log (log w ++ [Telethon.Ev (Telethon.disconnect client) (inl e)]) w).
Proof.
  intros Hget Hd. unfold remove_client, bind, get_manager. rewrite Hget.
  rewrite call_eq, Hd. reflexivity.
Qed.

(** C5.  When [h] is in the store and the library disconnects its client,
    [remove_client h] returns normally, has asked the library for that one
    disconnect, and leaves the store without [h] and with every other
    entry as before.  When [h] is not in the store, [remove_client h]
    returns normally and the world is unchanged. *)
Theorem remove_client_spec :
  forall w h,
    (forall client : Obj,
       Dict.get h (clients (client_manager w)) = Some client ->
       env unit (log w) (Telethon.disconnect client) = inr tt ->
       remove_client env h w
         = (inr tt,
            with_clients (Dict.del h (clients (client_manager w)))
              (with_log
                 (log w ++ [Telethon.Ev (Telethon.disconnect client) (inr tt)])
                 w))
       /\ Dict.get h (clients (client_manager (exec (remove_client env h) w)))
          = None
       /\ forall k, k <> h ->
            Dict.get k (clients (client_manager (exec (remove_client env h) w)))
            = Dict.get k (clients (client_manager w)))
    /\ (Dict.get h (clients (client_manager w)) = None ->
        remove_client env h w = (inr tt, w)).
Proof.
  intros w h. split.
  - intros client Hget Hd.
    assert (remove_client env h w
            = (inr tt,
               with_clients (Dict.del h (clients (client_manager w)))
                 (with_log
                    (log w ++ [Telethon.Ev (Telethon.disconnect client) (inr tt)])
                    w))) as E.
    { unfold remove_client, bind, get_manager. rewrite Hget.
      rewrite call_eq, Hd. reflexivity. }
    split; [exact E|]. unfold exec. rewrite E. simpl. split.
    + apply dict_get_del_same.
    + intros k Hk. apply dict_get_del_other. congruence.
  - intros Hget. unfold remove_client, bind, get_manager. now rewrite Hget.
Qed.

(** The loop of [disconnect_all]: if it runs to its end, it has
    disconnected the clients one by one, in order, and touched nothing
    else. *)
Lemma for_each_disconnect (cs : list Obj) :
  forall w w',
    for_each cs (fun client => call env (Telethon.disconnect client)) w
      = (inr tt, w') ->
    w' = with_log
           (log w ++ map (fun c => Telethon.Ev (Telethon.disconnect c) (inr tt)) cs)
           w.
Proof.
  induction cs as [|c cs IH]; intros w w' H; simpl in H.
  - inversion H; subst. simpl. rewrite app_nil_r. now destruct w'.
  - unfold bind in H. rewrite call_eq in H.
    destruct (env unit (log w) (Telethon.disconnect c)) as [e|[]];
      [discriminate|].
    apply IH in H. rewrite H. simpl. now rewrite <- app_assoc.
Qed.

(** The loop does run to its end when the library never fails to
    disconnect. *)
Lemma for_each_disconnect_returns (cs : list Obj) :
  (forall l c, env unit l (Telethon.disconnect c) = inr tt) ->
  forall w,
    fst (for_each cs (fun client => call env (Telethon.disconnect client)) w)
    = inr tt.
Proof.
  intros Hok. induction cs as [|c cs IH]; intros w; simpl; auto.
  unfold bind. rewrite call_eq, Hok. apply IH.
Qed.

Lemma disconnect_all_returns w :
  (forall l c, env unit l (Telethon.disconnect c) = inr tt) ->
  result (disconnect_all env) w = inr tt.
Proof.
  intros Hok. unfold result, disconnect_all, bind, get_manager.
  pose proof (for_each_disconnect_returns
                (Dict.values (clients (client_manager w))) Hok w) as H.
  destruct (for_each _ _ w) as [[e|[]] w1]; simpl in H; [discriminate|].
  reflexivity.
Qed.

(** When a disconnect fails, [disconnect_all] passes the exception on
    before it reaches [clear]: the store is as it was. *)
Lemma disconnect_all_raise w w' (e : Exn) :
  disconnect_all env w = (inl e, w') ->
  client_manager w' = client_manager w.
Proof.
  unfold disconnect_all, bind, get_manager.
  generalize (Dict.values (clients (client_manager w))) as cs.
  intros cs. revert w.
  assert (forall w e w1,
            for_each cs (fun client => call env (Telethon.disconnect client)) w
              = (inl e, w1) ->
            client_manager w1 = client_manager w) as G.
  { induction cs as [|c cs IH]; intros w e0 w1 H; simpl in H.
    - discriminate.
    - unfold bind in H. rewrite call_eq in H.
      destruct (env unit (log w) (Telethon.disconnect c)) as [e1|[]].
      + inversion H; subst. reflexivity.
      + apply IH in H. exact H. }
  intros w H.
  destruct (for_each cs _ w) as [[e1|[]] w1] eqn:E.
  - inversion H; subst. eapply G; eauto.
  - discriminate.
Qed.

(** C4.  If [disconnect_all] returns, the store is empty, so [get_client]
    raises its 400 for every handle, the ones that were valid before
    included; and the library was asked to disconnect every client that
    was stored, in the order of the store, each of which it did. *)
Theorem disconnect_all_spec :
  forall w w',
    disconnect_all env w = (inr tt, w') ->
    clients (client_manager w') = Dict.empty
    /\ (forall h,
          get_client h w' = (inl (HTTPException 400 "Session not found"), w'))
    /\ log w'
       = log w ++ map (fun c => Telethon.Ev (Telethon.disconnect c) (inr tt))
                    (Dict.values (clients (client_manager w)))
    /\ (forall h (client : Obj),
          Dict.get h (clients (client_manager w)) = Some client ->
          In (Telethon.Ev (Telethon.disconnect client) (inr tt)) (log w')).
Proof.
  intros w w' H. unfold disconnect_all, bind, get_manager in H.
  destruct (for_each _ _ w) as [[e|[]] w1] eqn:E; [discriminate|].
  apply for_each_disconnect in E. subst w1.
  unfold modify in H. inversion H; subst; clear H. simpl.
  repeat split.
  intros h client Hget. apply in_or_app. right.
  apply in_map_iff. exists client. split; auto.
  eapply dict_get_in_values; eauto.
Qed.

End Registry.

(** ** The handlers *)

Section Handlers.

Variable env : Telethon.Env.
Variable int_ : string -> option Z.
Variable http_str : Z -> string -> string.

Implicit Types (w : World) (client : Obj).

Lemma get_client_found w h client :
  Dict.get h (clients (client_manager w)) = Some client ->
  get_client h w = (inr client, w).
Proof. intros H. unfold get_client, bind, get_manager. now rewrite H. Qed.

Lemma get_client_missing w h :
  Dict.get h (clients (client_manager w)) = None ->
  get_client h w = (inl (HTTPException 400 "Session not found"), w).
Proof. intros H. unfold get_client, bind, get_manager. now rewrite H. Qed.

(** The 400 of [get_client] does not reach the caller of a handler: it is
    raised inside the handler's [try], no clause before [except Exception]
    catches it, and that clause answers 500. *)
Lemma unknown_session_is_500 w (h : string) :
  Dict.get h (clients (client_manager w)) = None ->
  let masked :=
    (inl (HTTPException 500 (http_str 400 "Session not found")), w) in
  (forall otp,
     verify_otp env http_str otp (SessionHash.mk h) w = masked)
  /\ (forall story,
        send_story env http_str story (SessionHash.mk h) w = masked)
  /\ (forall recipient message,
        send_message env int_ http_str
          (MessageRequest.mk h recipient message) w = masked).
Proof.
  intros H masked. subst masked.
  unfold verify_otp, send_story, send_message, try_except, bind; simpl.
  rewrite !(get_client_missing w h H). auto.
Qed.

(** The two session-creating handlers under the same guard:
    [create_session] tests the credentials itself and answers 400;
    [create_bot_session] lets [create_bot_client] raise its [ValueError]
    and answers 500 with that text.  Neither touches the world. *)
Lemma create_handlers_guard w (phone_number : PhoneNumber.t)
    (bot_token : BotToken.t) :
  truthy_int (app_id (client_manager w))
    && truthy_str (app_hash (client_manager w)) = false ->
  create_session env http_str phone_number w
    = (inl (HTTPException 400
              "API credentials not set. Please call /set_api_credentials first."),
       w)
  /\ create_bot_session env http_str bot_token w
    = (inl (HTTPException 500 "API credentials not set"), w).
Proof.
  intros H. split.
  - unfold create_session, bind, get_manager, raise.
    rewrite <- negb_andb, H. reflexivity.
  - unfold create_bot_session, try_except, bind.
    rewrite (create_bot_client_guard env w _ H). reflexivity.
Qed.

(** C6.  In a request on a registered session, a recipient that [int]
    accepts as [n] makes the handler call the library once, to send the
    message to [InputPeerUser(n, 0)]: no [get_entity].  A recipient that
    [int] rejects makes it call [get_entity] on the recipient string
    first, and send the message to what that returned. *)
Theorem send_message_recipient :
  forall w (request : MessageRequest.t) client,
    Dict.get (MessageRequest.session_hash request) (clients (client_manager w))
      = Some client ->
    (forall n,
       int_ (MessageRequest.recipient request) = Some n ->
       let send := Telethon.send_message client (Telethon.InputPeerUser n 0)
                     (MessageRequest.message request) in
       log (exec (send_message env int_ http_str request) w)
       = log w ++ [Telethon.Ev send (env _ (log w) send)])
    /\ (int_ (MessageRequest.recipient request) = None ->
        let lookup := Telethon.get_entity client
                        (MessageRequest.recipient request) in
        let looked_up := log w ++ [Telethon.Ev lookup (env _ (log w) lookup)] in
        log (exec (send_message env int_ http_str request) w)
        = looked_up ++
          match env _ (log w) lookup with
          | inl _ => []
          | inr entity =>
              let send := Telethon.send_message client (Telethon.Resolved entity)
                            (MessageRequest.message request) in
              [Telethon.Ev send (env _ looked_up send)]
          end).
Proof.
  intros w request client Hget. split.
  - intros n Hn send. subst send.
    unfold exec, send_message, try_except, bind.
    rewrite (get_client_found _ _ _ Hget), Hn. simpl.
    destruct (env Telethon.Message (log w) _) as [[]|m]; reflexivity.
  - intros Hn lookup looked_up. subst looked_up lookup.
    unfold exec, send_message, try_except, bind.
    rewrite (get_client_found _ _ _ Hget), Hn. simpl.
    destruct (env Z (log w) _) as [e|entity]; simpl.
    + rewrite app_nil_r. destruct e; reflexivity.
    + destruct (env Telethon.Message _ _) as [[]|m]; reflexivity.
Qed.

(** C7.  When [sign_in] raises [SessionPasswordNeededError], [verify_otp]
    returns a body (status 200) made of the advisory message and the
    request's own session hash. *)
Theorem verify_otp_two_factor :
  forall w (otp : OTPVerification.t) (session : SessionHash.t) client msg,
    Dict.get (SessionHash.hash session) (clients (client_manager w))
      = Some client ->
    env unit (log w)
      (Telethon.sign_in client (OTPVerification.phone otp)
         (OTPVerification.code otp) (OTPVerification.phone_code_hash otp))
      = inl (SessionPasswordNeededError msg) ->
    result (verify_otp env http_str otp session) w
      = inr (JObj
               [("message",
                 JStr "Two-step verification is enabled. Please provide the password.");
                ("session_hash", JStr (SessionHash.hash session))])
    /\ http_status (result (verify_otp env http_str otp session) w) = 200%Z.
Proof.
  intros w otp session client msg Hget Hsign.
  unfold result, verify_otp, try_except, bind.
  rewrite (get_client_found _ _ _ Hget), call_eq, Hsign. simpl. auto.
Qed.

(** C8.  When [sign_in] raises [PhoneCodeInvalidError], [verify_otp]
    raises [HTTPException(status_code=401)]. *)
Theorem verify_otp_invalid_code :
  forall w (otp : OTPVerification.t) (session : SessionHash.t) client msg,
    Dict.get (SessionHash.hash session) (clients (client_manager w))
      = Some client ->
    env unit (log w)
      (Telethon.sign_in client (OTPVerification.phone otp)
         (OTPVerification.code otp) (OTPVerification.phone_code_hash otp))
      = inl (PhoneCodeInvalidError msg) ->
    result (verify_otp env http_str otp session) w
      = inl (HTTPException 401 "Invalid code provided.")
    /\ http_status (result (verify_otp env http_str otp session) w) = 401%Z.
Proof.
  intros w otp session client msg Hget Hsign.
  unfold result, verify_otp, try_except, bind.
  rewrite (get_client_found _ _ _ Hget), call_eq, Hsign. simpl. auto.
Qed.

(** C9, what the code does.  When the client of the session is not
    authorized, [send_story] asks the library nothing beyond
    [is_user_authorized] (no upload, no story), but the
    [HTTPException(401)] it raises on line 246 is caught by the
    [except Exception] of line 258: the handler answers 500, with the text
    of the 401 as detail. *)
Theorem send_story_unauthorized :
  forall w (story_request : StoryRequest.t) (session : SessionHash.t) client,
    Dict.get (SessionHash.hash session) (clients (client_manager w))
      = Some client ->
    env bool (log w) (Telethon.is_user_authorized client) = inr false ->
    send_story env http_str story_request session w
      = (inl (HTTPException 500
                (http_str 401 "Unauthorized. Please authenticate first.")),
         with_log
           (log w ++
            [Telethon.Ev (Telethon.is_user_authorized client) (inr false)])
           w)
    /\ http_status (result (send_story env http_str story_request session) w)
       = 500%Z.
Proof.
  intros w story_request session client Hget Hauth.
  unfold result, send_story, try_except, bind.
  rewrite (get_client_found _ _ _ Hget), call_eq, Hauth. simpl. auto.
Qed.

End Handlers.

(** ** The registry when it grows and when the library fails *)

(** Case analysis on the replies of the library, call after call. *)
Ltac replies env :=
  repeat match goal with
  | |- context [match env ?A ?l ?c with _ => _ end] =>
      destruct (env A l c) as [?e|?a]; cbn
  end;
  repeat match goal with u : unit |- _ => destruct u end.

Ltac open_world :=
  unfold opened, with_log, with_clients; cbn; rewrite <- ?app_assoc; cbn.

Section RegistryGrowth.

Variable env : Telethon.Env.

Implicit Types (w : World) (h : string).

Lemma get_client_opened w first arg h :
  get_client h (opened w first arg h)
  = (inr (S (next_obj w)), opened w first arg h).
Proof.
  unfold get_client, bind, get_manager, ret. cbn.
  now rewrite dict_get_set_same.
Qed.

(** A constructor that returns has gone all the way. *)
Lemma create_bot_client_returned w bot_token h w' :
  create_bot_client env bot_token w = (inr h, w') ->
  w' = opened w (Telethon.start (S (next_obj w)) bot_token) None h.
Proof.
  unfold create_bot_client, bind, get_manager, raise, new_obj, modify,
    add_message_handler, ret, call.
  destruct (negb _ || negb _); [discriminate|]. cbn.
  replies env; try discriminate.
  intros H. inversion H; subst. open_world. reflexivity.
Qed.

(** [create_client] returns either through line 75 or through line 84. *)
Lemma create_client_returned w session_hash h w' :
  create_client env session_hash w = (inr h, w') ->
  (session_hash = Some h /\ h <> ""
   /\ Dict.mem h (clients (client_manager w)) = true /\ w' = w)
  \/ ((forall s, session_hash = Some s -> s <> "" ->
         Dict.mem s (clients (client_manager w)) = false)
      /\ w' = opened w (Telethon.connect (S (next_obj w)))
                (if truthy_str session_hash then session_hash else None) h).
Proof.
  unfold create_client, bind, get_manager, raise, new_obj, modify,
    add_message_handler, ret, call.
  destruct (negb _ || negb _); [discriminate|].
  destruct session_hash as [s|].
  - destruct (truthy_str (Some s) && Dict.mem s (clients (client_manager w)))
      eqn:T.
    + intros H. inversion H; subst. left.
      apply andb_prop in T as [T1 T2]. simpl in T1.
      repeat split; auto. intros ->. discriminate.
    + cbn. replies env; try discriminate.
      intros H. inversion H; subst. right. split.
      * intros s' [= <-] Hs. simpl in T.
        destruct (String.eqb_spec s ""); [contradiction|]. exact T.
      * open_world. reflexivity.
  - cbn. replies env; try discriminate.
    intros H. inversion H; subst. right. split; [discriminate|].
    open_world. reflexivity.
Qed.

(** A constructor that returns had truthy credentials. *)
Lemma create_client_passed_guard w session_hash h w' :
  create_client env session_hash w = (inr h, w') ->
  negb (truthy_int (app_id (client_manager w)))
    || negb (truthy_str (app_hash (client_manager w))) = false.
Proof.
  intros H.
  destruct (negb _ || negb _) eqn:G; [|reflexivity].
  rewrite <- negb_andb in G. apply negb_true_iff in G.
  rewrite (create_client_guard env w session_hash G) in H. discriminate.
Qed.

(** [create_client] raises either before it registered the handler, with
    the store as it was, or at that registration, with the client already
    stored (line 82 runs before line 83). *)
Lemma create_client_raised w session_hash (e : Exn) w' :
  create_client env session_hash w = (inl e, w') ->
  exists l,
    log w' = log w ++ l
    /\ (existsb is_registration l = false ->
        clients (client_manager w') = clients (client_manager w))
    /\ (existsb is_registration l = true ->
        exists h,
          w' = registered_with w (Telethon.connect (S (next_obj w)))
                 (if truthy_str session_hash then session_hash else None)
                 h (inl e)).
Proof.
  unfold create_client, bind, get_manager, raise, new_obj, modify,
    add_message_handler, ret, call.
  destruct (negb _ || negb _).
  { intros H. inversion H; subst. exists []. rewrite app_nil_r.
    repeat split; auto. discriminate. }
  destruct session_hash as [s|];
    [destruct (truthy_str (Some s) && Dict.mem s (clients (client_manager w)))|];
    cbn; replies env; intros H; inversion H; subst; clear H;
    (eexists; split; [cbn; rewrite <- ?app_assoc; cbn; reflexivity|]);
    cbn; (split; intros H; try discriminate H; try reflexivity);
    eexists; unfold registered_with, with_log, with_clients; cbn;
    rewrite <- ?app_assoc; reflexivity.
Qed.

(** X1.  On an argument that is [None], empty or not in the store,
    [create_client] allocates a session and a client, builds the session
    from the argument (from nothing when the argument is [None] or empty),
    builds the client with the stored credentials, connects it, saves the
    session, stores the client under the saved string, registers the
    "/ping" handler and returns the saved string, in that order.  When it
    returns, the world is the one these steps leave and nothing else
    changed; when it raises at the registration, the steps before it are
    done: the client is in the store. *)
Theorem create_client_fresh :
  forall w (session_hash : option string),
    (forall s, session_hash = Some s -> s <> "" ->
       Dict.get s (clients (client_manager w)) = None) ->
    (forall h w',
       create_client env session_hash w = (inr h, w') ->
       w' = opened w (Telethon.connect (S (next_obj w)))
              (if truthy_str session_hash then session_hash else None) h)
    /\ (forall e w',
          create_client env session_hash w = (inl e, w') ->
          exists l,
            log w' = log w ++ l
            /\ (existsb is_registration l = true ->
                exists h,
                  w' = registered_with w (Telethon.connect (S (next_obj w)))
                         (if truthy_str session_hash then session_hash else None)
                         h (inl e))).
Proof.
  intros w session_hash Hnew. split.
  - intros h w' H.
    apply create_client_returned in H as [(-> & Hne & Hmem & _)|[_ H]]; auto.
    unfold Dict.mem in Hmem. rewrite (Hnew h eq_refl Hne) in Hmem.
    discriminate.
  - intros e w' H.
    apply create_client_raised in H as (l & Hl & _ & Hreg).
    exists l. split; assumption.
Qed.

(** X2.  When [create_bot_client] returns, it has done what [create_client]
    does for a new session, with [client.start(bot_token=...)] in the place
    of [connect]; and [get_client] on the handle it returned gives the
    client it just started. *)
Theorem create_bot_client_spec :
  forall w (bot_token : string) h w',
    create_bot_client env bot_token w = (inr h, w') ->
    w' = opened w (Telethon.start (S (next_obj w)) bot_token) None h
    /\ get_client h w' = (inr (S (next_obj w)), w').
Proof.
  intros w bot_token h w' H. apply create_bot_client_returned in H. subst w'.
  split; [reflexivity | apply get_client_opened].
Qed.

(** X3.  A handle that [create_client] returned is in the store: [get_client]
    on it succeeds in the world the call left, with the client that was
    already stored (the handle was passed in and found) or with the client
    just created. *)
Theorem created_handle_resolves :
  forall w (session_hash : option string) h w',
    create_client env session_hash w = (inr h, w') ->
    exists client : Obj,
      get_client h w' = (inr client, w')
      /\ (session_hash = Some h /\ h <> ""
          /\ Dict.get h (clients (client_manager w)) = Some client
          \/ client = S (next_obj w)).
Proof.
  intros w session_hash h w' H.
  apply create_client_returned in H as [(-> & Hne & Hmem & ->)|[_ ->]].
  - unfold Dict.mem in Hmem.
    destruct (Dict.get h (clients (client_manager w))) as [c|] eqn:E;
      [|discriminate].
    exists c. split; [|left; auto].
    unfold get_client, bind, get_manager, ret. now rewrite E.
  - exists (S (next_obj w)). split; [apply get_client_opened | right; auto].
Qed.

(** X4.  Creating a session under a handle that was free and then removing
    it brings every lookup of the store back to what it was; the client
    that was created is the one that was disconnected. *)
Theorem create_then_remove :
  forall w (session_hash : option string) h w1 w2,
    Dict.get h (clients (client_manager w)) = None ->
    create_client env session_hash w = (inr h, w1) ->
    remove_client env h w1 = (inr tt, w2) ->
    (forall k, Dict.get k (clients (client_manager w2))
               = Dict.get k (clients (client_manager w)))
    /\ log w2
       = log w1 ++ [Telethon.Ev (Telethon.disconnect (S (next_obj w))) (inr tt)].
Proof.
  intros w session_hash h w1 w2 Hnone Hc Hr.
  apply create_client_returned in Hc as [(_ & _ & Hmem & _)|[_ ->]].
  { unfold Dict.mem in Hmem. rewrite Hnone in Hmem. discriminate. }
  unfold remove_client, bind, get_manager, modify, call in Hr. cbn in Hr.
  rewrite dict_get_set_same in Hr.
  destruct (env unit _ (Telethon.disconnect _)) as [e|[]]; [discriminate|].
  inversion Hr; subst; clear Hr. cbn. split; [|reflexivity].
  intros k. destruct (String.eqb_spec h k) as [<-|Hk].
  - now rewrite dict_get_del_same.
  - rewrite dict_get_del_other, dict_get_set_other by assumption. reflexivity.
Qed.

Ltac frame_leaf :=
  first [ exists []; split; [now rewrite app_nil_r|]
        | eexists; split; [rewrite <- ?app_assoc; cbn; reflexivity|] ];
  split; [repeat constructor|];
  intros k Hk;
  try (exfalso; apply Hk; reflexivity);
  match goal with
  | Hk : Dict.get k (Dict.set ?a _ _) <> _ |- _ =>
      destruct (String.eqb_spec a k) as [<-|Hak];
      [cbn; auto 10
      |exfalso; apply Hk; apply dict_get_set_other; assumption]
  end.

(** X5.  Whatever the library answers and whether they return or raise,
    [create_client] and [create_bot_client] leave the credentials alone,
    only add to the log, never ask for a disconnect, and change the store
    at no key other than a string that [save] returned for the session they
    allocated.  In particular a client whose entry gets overwritten is not
    disconnected. *)
Theorem constructors_frame :
  forall w,
    (forall session_hash : option string,
       let w' := exec (create_client env session_hash) w in
       app_id (client_manager w') = app_id (client_manager w)
       /\ app_hash (client_manager w') = app_hash (client_manager w)
       /\ exists l,
            log w' = log w ++ l
            /\ Forall (fun ev => is_disconnect ev = false) l
            /\ forall k,
                 Dict.get k (clients (client_manager w'))
                   <> Dict.get k (clients (client_manager w)) ->
                 In (Telethon.Ev (Telethon.save (next_obj w)) (inr k)) l)
    /\ (forall bot_token : string,
          let w' := exec (create_bot_client env bot_token) w in
          app_id (client_manager w') = app_id (client_manager w)
          /\ app_hash (client_manager w') = app_hash (client_manager w)
          /\ exists l,
               log w' = log w ++ l
               /\ Forall (fun ev => is_disconnect ev = false) l
               /\ forall k,
                    Dict.get k (clients (client_manager w'))
                      <> Dict.get k (clients (client_manager w)) ->
                    In (Telethon.Ev (Telethon.save (next_obj w)) (inr k)) l).
Proof.
  intros w. split.
  - intros session_hash w'. subst w'.
    unfold exec, create_client, bind, get_manager, raise, new_obj, modify,
      add_message_handler, ret, call.
    destruct (negb _ || negb _).
    { cbn. repeat split. exists []. rewrite app_nil_r. repeat split; auto.
      intros k Hk. now contradiction Hk. }
    destruct session_hash as [s|];
      [destruct (truthy_str (Some s) && Dict.mem s (clients (client_manager w)))|];
      cbn; replies env; (split; [reflexivity|]); (split; [reflexivity|]);
      frame_leaf.
  - intros bot_token w'. subst w'.
    unfold exec, create_bot_client, bind, get_manager, raise, new_obj, modify,
      add_message_handler, ret, call.
    destruct (negb _ || negb _).
    { cbn. repeat split. exists []. rewrite app_nil_r. repeat split; auto.
      intros k Hk. now contradiction Hk. }
    cbn; replies env; (split; [reflexivity|]); (split; [reflexivity|]);
      frame_leaf.
Qed.

(** X6.  When [create_client] raises, look at the calls it made.  If the
    registration of the "/ping" handler (line 83) is not among them, the
    store is as it was.  If it is, it is the call that raised, and the
    client is already stored under the handle [save] returned, which
    [get_client] resolves and the caller never receives. *)
Theorem create_client_raises :
  forall w (session_hash : option string) (e : Exn) w',
    create_client env session_hash w = (inl e, w') ->
    exists l,
      log w' = log w ++ l
      /\ (existsb is_registration l = false ->
          clients (client_manager w') = clients (client_manager w))
      /\ (existsb is_registration l = true ->
          exists h l0,
            l = l0 ++ [Telethon.Ev (Telethon.save (next_obj w)) (inr h);
                       Telethon.Ev
                         (Telethon.on_NewMessage (S (next_obj w)) "/ping" "pong")
                         (inl e)]
            /\ clients (client_manager w')
               = Dict.set h (S (next_obj w)) (clients (client_manager w))
            /\ get_client h w' = (inr (S (next_obj w)), w')).
Proof.
  intros w session_hash e w' H.
  apply create_client_raised in H as (l & Hl & Hno & Hyes).
  exists l. split; [exact Hl|]. split; [exact Hno|].
  intros Hreg. destruct (Hyes Hreg) as [h ->]. exists h.
  cbn in Hl. apply app_inv_head in Hl. subst l.
  eexists. split; [|split].
  - change (?a :: ?b :: ?c :: ?d :: ?rest) with ([a; b; c] ++ d :: rest).
    reflexivity.
  - reflexivity.
  - unfold get_client, bind, get_manager, ret. cbn.
    now rewrite dict_get_set_same.
Qed.

(** The loop of [disconnect_all], when it does not reach its end: it
    stopped at the first client whose disconnect raised. *)
Lemma for_each_disconnect_raises (cs : list Obj) :
  forall w (e : Exn) w',
    for_each cs (fun client => call env (Telethon.disconnect client)) w
      = (inl e, w') ->
    exists done client rest,
      cs = done ++ client :: rest
      /\ w' = with_log
                (log w ++
                 map (fun c => Telethon.Ev (Telethon.disconnect c) (inr tt)) done
                 ++ [Telethon.Ev (Telethon.disconnect client) (inl e)])
                w.
Proof.
  induction cs as [|c cs IH]; intros w e w' H; simpl in H.
  - discriminate.
  - unfold bind in H. rewrite (call_eq env) in H.
    destruct (env unit (log w) (Telethon.disconnect c)) as [e1|[]].
    + inversion H; subst. exists [], c, cs. split; reflexivity.
    + apply IH in H as (done & client & rest & -> & ->).
      exists (c :: done), client, rest. split; [reflexivity|].
      unfold with_log. cbn. now rewrite <- app_assoc.
Qed.

(** X7.  When [disconnect_all] raises, it is the exception of the first
    disconnect that failed: the clients stored before that one were
    disconnected, the ones after it were not asked, and the store was not
    cleared (every handle is still valid). *)
Theorem disconnect_all_stops_at_failure :
  forall w (e : Exn) w',
    disconnect_all env w = (inl e, w') ->
    client_manager w' = client_manager w
    /\ exists done client rest,
         Dict.values (clients (client_manager w)) = done ++ client :: rest
         /\ log w'
            = log w ++
              map (fun c => Telethon.Ev (Telethon.disconnect c) (inr tt)) done
              ++ [Telethon.Ev (Telethon.disconnect client) (inl e)].
Proof.
  intros w e w' H. unfold disconnect_all, bind, get_manager in H.
  destruct (for_each _ _ w) as [[e1|[]] w1] eqn:E; [|discriminate].
  inversion H; subst; clear H.
  apply for_each_disconnect_raises in E as (done & client & rest & Hcs & ->).
  split; [reflexivity|]. exists done, client, rest. split; [exact Hcs|reflexivity].
Qed.

(** X8.  The credentials the library receives are the ones
    [set_api_credentials] stored last: a constructor that returns right
    after it has built its client with exactly that [app_id] and
    [app_hash], neither of them falsy. *)
Theorem credentials_reach_library :
  forall w (credentials : APICredentials.t) (bot_token : string) h w',
    create_bot_client env bot_token (exec (set_api_credentials credentials) w)
      = (inr h, w') ->
    APICredentials.app_id credentials <> 0%Z
    /\ APICredentials.app_hash credentials <> ""
    /\ In (Telethon.Ev
             (Telethon.TelegramClient (S (next_obj w)) (next_obj w)
                (Some (APICredentials.app_id credentials))
                (Some (APICredentials.app_hash credentials)))
             (inr tt))
          (log w').
Proof.
  intros w [i s] bot_token h w' H. cbn.
  assert (truthy_int (Some i) && truthy_str (Some s) = true) as G.
  { destruct (truthy_int (Some i) && truthy_str (Some s)) eqn:G; auto.
    rewrite (create_bot_client_guard env
               (exec (set_api_credentials (APICredentials.mk i s)) w)
               bot_token G) in H.
    discriminate. }
  apply andb_prop in G as [Gi Gs]. cbn in Gi, Gs.
  apply create_bot_client_returned in H. subst w'.
  split; [|split].
  - intros ->. discriminate.
  - intros ->. discriminate.
  - cbn. apply in_or_app. right. cbn. auto.
Qed.

End RegistryGrowth.

(** ** What the handlers answer *)

Section HandlerOutcomes.

Variable env : Telethon.Env.
Variable int_ : string -> option Z.
Variable http_str : Z -> string -> string.

Implicit Types (w : World) (client : Obj).

(** C3, what the code does.  On a handle that is not in the store the
    manager's [get_client] raises [HTTPException(400, "Session not found")],
    but no endpoint answers 400: every handler that looks a session up does
    so inside its [try], the 400 is an [Exception], and the
    [except Exception] clause turns it into a 500 whose detail is the text
    of the 400.  Nothing is asked of the library. *)
Theorem unknown_session_answers_500 :
  forall w (h : string),
    Dict.get h (clients (client_manager w)) = None ->
    let not_found := HTTPException 400 "Session not found" in
    let masked := HTTPException 500 (http_str 400 "Session not found") in
    get_client h w = (inl not_found, w)
    /\ (forall password,
          verify_2fa env http_str (TwoFAPassword.mk password h) w
            = (inl masked, w))
    /\ (forall otp,
          verify_otp env http_str otp (SessionHash.mk h) w = (inl masked, w))
    /\ (forall story,
          send_story env http_str story (SessionHash.mk h) w = (inl masked, w))
    /\ (forall recipient message,
          send_message env int_ http_str
            (MessageRequest.mk h recipient message) w = (inl masked, w))
    /\ http_status (@inl Exn Json masked) = 500%Z.
Proof.
  intros w h H not_found masked. subst not_found masked.
  unfold verify_2fa, verify_otp, send_story, send_message, try_except, bind;
    simpl.
  rewrite !(get_client_missing w h H). repeat split.
Qed.

(** X9.  No handler lets an exception other than [HTTPException] out, and
    each has a closed set of statuses besides 200: [verify_otp] 401 and
    500; [send_message] and [create_session] 400 and 500; [verify_2fa],
    [send_story] and [create_bot_session] 500 only.  So [send_story] never
    answers 401 and no handler answers the 400 of [get_client]. *)
Theorem handlers_answer :
  forall w,
    (forall otp session,
       answers [401; 500]%Z (result (verify_otp env http_str otp session) w))
    /\ (forall two_fa,
          answers [500]%Z (result (verify_2fa env http_str two_fa) w))
    /\ (forall story session,
          answers [500]%Z (result (send_story env http_str story session) w))
    /\ (forall request,
          answers [400; 500]%Z
            (result (send_message env int_ http_str request) w))
    /\ (forall phone_number,
          answers [400; 500]%Z
            (result (create_session env http_str phone_number) w))
    /\ (forall bot_token,
          answers [500]%Z
            (result (create_bot_session env http_str bot_token) w)).
Proof.
  intros w. unfold result.
  repeat split; intros.
  - unfold verify_otp, try_except.
    destruct (bind _ _ w) as [[[]|] ?]; cbn; auto.
  - unfold verify_2fa, try_except.
    destruct (bind _ _ w) as [[[]|] ?]; cbn; auto.
  - unfold send_story, try_except.
    destruct (bind _ _ w) as [[[]|] ?]; cbn; auto.
  - unfold send_message, try_except at 1.
    destruct (bind _ _ w) as [[[]|] ?]; cbn; auto.
  - unfold create_session, bind at 1, get_manager, try_except.
    destruct (negb _ || negb _); cbn; auto.
    destruct (bind _ _ w) as [[[]|] ?]; cbn; auto.
  - unfold create_bot_session, try_except.
    destruct (bind _ _ w) as [[[]|] ?]; cbn; auto.
Qed.

(** X10.  [verify_2fa] on a registered session: when the sign-in with the
    password raises, the handler answers 500 with the text of the exception
    and does not ask who the user is; when it succeeds and [get_me] returns
    a user, the handler returns "Authenticated as <first name>" and the
    session hash of the request. *)
Theorem verify_2fa_spec :
  forall w (two_fa : TwoFAPassword.t) client,
    Dict.get (TwoFAPassword.session_hash two_fa) (clients (client_manager w))
      = Some client ->
    let sign := Telethon.sign_in_password client (TwoFAPassword.password two_fa) in
    (forall e,
       env unit (log w) sign = inl e ->
       verify_2fa env http_str two_fa w
       = (inl (HTTPException 500 (str_exn http_str e)),
          with_log (log w ++ [Telethon.Ev sign (inl e)]) w))
    /\ (forall user,
          env unit (log w) sign = inr tt ->
          env Telethon.User (log w ++ [Telethon.Ev sign (inr tt)])
            (Telethon.get_me client) = inr user ->
          verify_2fa env http_str two_fa w
          = (inr (JObj
                    [("message",
                      JStr ("Authenticated as " ++ Telethon.first_name user)%string);
                     ("session_hash",
                      JStr (TwoFAPassword.session_hash two_fa))]),
             with_log
               (log w ++ [Telethon.Ev sign (inr tt);
                          Telethon.Ev (Telethon.get_me client) (inr user)])
               w)).
Proof.
  intros w two_fa client Hget sign. subst sign.
  unfold verify_2fa, try_except, bind.
  rewrite (get_client_found _ _ _ Hget), (call_eq env). split.
  - intros e ->. reflexivity.
  - intros user -> Hme. cbn. rewrite Hme. cbn.
    unfold with_log. cbn. now rewrite <- app_assoc.
Qed.

(** X11.  [verify_otp] on a registered session, besides the two errors it
    names: when the sign-in succeeds and [get_me] returns a user, the
    handler returns "Authenticated as <first name>" and the session hash;
    when the sign-in raises anything but [SessionPasswordNeededError] and
    [PhoneCodeInvalidError], it answers 500 with the text of the
    exception. *)
Theorem verify_otp_authenticated :
  forall w (otp : OTPVerification.t) (session : SessionHash.t) client,
    Dict.get (SessionHash.hash session) (clients (client_manager w))
      = Some client ->
    let sign := Telethon.sign_in client (OTPVerification.phone otp)
                  (OTPVerification.code otp)
                  (OTPVerification.phone_code_hash otp) in
    (forall user,
       env unit (log w) sign = inr tt ->
       env Telethon.User (log w ++ [Telethon.Ev sign (inr tt)])
         (Telethon.get_me client) = inr user ->
       verify_otp env http_str otp session w
       = (inr (JObj
                 [("message",
                   JStr ("Authenticated as " ++ Telethon.first_name user)%string);
                  ("session_hash", JStr (SessionHash.hash session))]),
          with_log
            (log w ++ [Telethon.Ev sign (inr tt);
                       Telethon.Ev (Telethon.get_me client) (inr user)])
            w))
    /\ (forall e,
          env unit (log w) sign = inl e ->
          (forall msg, e <> SessionPasswordNeededError msg) ->
          (forall msg, e <> PhoneCodeInvalidError msg) ->
          verify_otp env http_str otp session w
          = (inl (HTTPException 500 (str_exn http_str e)),
             with_log (log w ++ [Telethon.Ev sign (inl e)]) w)).
Proof.
  intros w otp session client Hget sign. subst sign.
  unfold verify_otp, try_except, bind.
  rewrite (get_client_found _ _ _ Hget), (call_eq env). split.
  - intros user -> Hme. cbn. rewrite Hme. cbn.
    unfold with_log. cbn. now rewrite <- app_assoc.
  - intros e -> H1 H2. cbn. destruct e; try reflexivity.
    + now contradiction (H1 msg).
    + now contradiction (H2 msg).
Qed.

(** X12.  When [send_story] returns, the session was registered, its client
    said it was authorized, and the handler made exactly four calls on it,
    in this order: [is_user_authorized], [get_me], [upload_file] of the
    request's path, and the story request with the user's own id as peer,
    the uploaded file, and the request's [spoiler] and [ttl_seconds]. *)
Theorem send_story_posted :
  forall w (story_request : StoryRequest.t) (session : SessionHash.t) body w',
    send_story env http_str story_request session w = (inr body, w') ->
    body = JObj [("message", JStr "Story sent successfully")]
    /\ exists client me file,
         Dict.get (SessionHash.hash session) (clients (client_manager w))
           = Some client
         /\ w' = with_log
                  (log w ++
                   [Telethon.Ev (Telethon.is_user_authorized client) (inr true);
                    Telethon.Ev (Telethon.get_me client) (inr me);
                    Telethon.Ev
                      (Telethon.upload_file client
                         (StoryRequest.file_path story_request))
                      (inr file);
                    Telethon.Ev
                      (Telethon.SendStoryRequest client (Telethon.id me) file
                         (StoryRequest.spoiler story_request)
                         (StoryRequest.ttl_seconds story_request))
                      (inr tt)])
                  w.
Proof.
  intros w story_request session body w'.
  unfold send_story, try_except, bind, get_client, get_manager, raise, ret, call.
  cbn.
  destruct (Dict.get (SessionHash.hash session) (clients (client_manager w)))
    as [client|] eqn:Hget; cbn; [|discriminate].
  destruct (env bool _ _) as [e|[|]]; cbn; try discriminate.
  destruct (env Telethon.User _ _) as [e|me]; cbn; try discriminate.
  destruct (env Z _ _) as [e|file]; cbn; try discriminate.
  destruct (env unit _ _) as [e|[]]; cbn; try discriminate.
  intros H. inversion H; subst; clear H. split; [reflexivity|].
  exists client, me, file. split; [reflexivity|].
  unfold with_log. cbn. now rewrite <- !app_assoc.
Qed.

(** X13.  When [create_session] returns, a new client was created,
    connected and stored, the code was requested for the request's phone
    number with [force_sms=True], and the body carries the new handle and
    the [phone_code_hash] the library returned; [get_client] on that handle
    gives the new client. *)
Theorem create_session_ok :
  forall w (phone_number : PhoneNumber.t) body w',
    create_session env http_str phone_number w = (inr body, w') ->
    exists h sent,
      body = JObj [("session_hash", JStr h);
                   ("phone_code_hash", JStr (Telethon.phone_code_hash sent))]
      /\ w' = with_log
                (log (opened w (Telethon.connect (S (next_obj w))) None h) ++
                 [Telethon.Ev
                    (Telethon.send_code_request (S (next_obj w))
                       (PhoneNumber.phone phone_number) true)
                    (inr sent)])
                (opened w (Telethon.connect (S (next_obj w))) None h)
      /\ get_client h w' = (inr (S (next_obj w)), w').
Proof.
  intros w phone_number body w'.
  unfold create_session, bind at 1, get_manager.
  destruct (negb _ || negb _); [discriminate|].
  unfold try_except, bind.
  destruct (create_client env None w) as [[e|h] w1] eqn:Hc; [discriminate|].
  apply create_client_returned in Hc as [([=] & _)|[_ ->]].
  rewrite get_client_opened, (call_eq env).
  destruct (env Telethon.SentCode _ _) as [e|sent]; [discriminate|].
  intros H. inversion H; subst; clear H.
  exists h, sent. repeat split.
  unfold get_client, bind, get_manager, ret. cbn.
  now rewrite dict_get_set_same.
Qed.

(** X14.  When the code request fails after [create_client] succeeded,
    [create_session] answers 500 with the text of the exception, and the
    client it created stays connected and stored under a handle the caller
    was not told. *)
Theorem create_session_failed_request :
  forall w (phone_number : PhoneNumber.t) h w1 (e : Exn),
    create_client env None w = (inr h, w1) ->
    let request := Telethon.send_code_request (S (next_obj w))
                     (PhoneNumber.phone phone_number) true in
    env Telethon.SentCode (log w1) request = inl e ->
    let w' := with_log (log w1 ++ [Telethon.Ev request (inl e)]) w1 in
    create_session env http_str phone_number w
      = (inl (HTTPException 500 (str_exn http_str e)), w')
    /\ get_client h w' = (inr (S (next_obj w)), w').
Proof.
  intros w phone_number h w1 e Hc request Hreq w'. subst request w'.
  pose proof (create_client_passed_guard _ _ _ _ _ Hc) as G.
  pose proof Hc as Hw1.
  apply create_client_returned in Hw1 as [([=] & _)|[_ Hw1]].
  assert (get_client h w1 = (inr (S (next_obj w)), w1)) as Hg.
  { subst w1. apply get_client_opened. }
  split.
  - unfold create_session, bind at 1, get_manager. rewrite G.
    unfold try_except, bind. rewrite Hc, Hg, (call_eq env), Hreq. reflexivity.
  - unfold get_client, bind, get_manager, ret in *. cbn in *.
    destruct (Dict.get h (clients (client_manager w1))); inversion Hg; subst.
    reflexivity.
Qed.

(** X15.  When [create_bot_session] returns, a new client was created,
    started with the request's token and stored, [get_me] was asked on it,
    and the body carries the new handle and the [id], [first_name],
    [username] and [bot] of what [get_me] returned. *)
Theorem create_bot_session_ok :
  forall w (bot_token : BotToken.t) body w',
    create_bot_session env http_str bot_token w = (inr body, w') ->
    exists h bot_info,
      body = JObj [("session_hash", JStr h);
                   ("bot_info",
                    JObj [("id", JInt (Telethon.id bot_info));
                          ("first_name", JStr (Telethon.first_name bot_info));
                          ("username",
                           match Telethon.username bot_info with
                           | Some u => JStr u
                           | None => JNull
                           end);
                          ("bot", JBool (Telethon.bot bot_info))])]
      /\ w' = with_log
                (log (opened w
                        (Telethon.start (S (next_obj w))
                           (BotToken.token bot_token)) None h) ++
                 [Telethon.Ev (Telethon.get_me (S (next_obj w))) (inr bot_info)])
                (opened w
                   (Telethon.start (S (next_obj w)) (BotToken.token bot_token))
                   None h)
      /\ get_client h w' = (inr (S (next_obj w)), w').
Proof.
  intros w bot_token body w' H.
  unfold create_bot_session, try_except, bind in H.
  destruct (create_bot_client env (BotToken.token bot_token) w)
    as [[e|h] w0] eqn:Hc; [discriminate|].
  apply create_bot_client_returned in Hc. subst w0.
  rewrite get_client_opened, (call_eq env) in H.
  destruct (env Telethon.User _ _) as [e|bot_info]; [discriminate|].
  inversion H; subst; clear H.
  exists h, bot_info. repeat split.
  unfold get_client, bind, get_manager, ret. cbn.
  now rewrite dict_get_set_same.
Qed.

(** X16.  When the recipient is not an integer and [get_entity] raises,
    [send_message] sends nothing: it answers 400 with the text of the
    exception if that is a [ValueError] (Telethon's "cannot find any
    entity"), and 500 otherwise. *)
Theorem send_message_lookup_fails :
  forall w (request : MessageRequest.t) client (e : Exn),
    Dict.get (MessageRequest.session_hash request) (clients (client_manager w))
      = Some client ->
    int_ (MessageRequest.recipient request) = None ->
    let lookup := Telethon.get_entity client (MessageRequest.recipient request) in
    env Z (log w) lookup = inl e ->
    send_message env int_ http_str request w
    = (inl (HTTPException
              (match e with ValueError _ => 400 | _ => 500 end)
              (str_exn http_str e)),
       with_log (log w ++ [Telethon.Ev lookup (inl e)]) w).
Proof.
  intros w request client e Hget Hint lookup Hl. subst lookup.
  unfold send_message, try_except, bind.
  rewrite (get_client_found _ _ _ Hget), Hint. cbn.
  rewrite Hl. destruct e; reflexivity.
Qed.

(** X17.  When [send_message] returns, the session was registered, the last
    call was the library's [send_message] with the request's text, and the
    body carries the id of the message the library returned.  The target
    was [InputPeerUser(n, 0)] with no other call when the recipient is the
    integer [n], and what [get_entity] had just returned otherwise. *)
Theorem send_message_sent :
  forall w (request : MessageRequest.t) body w',
    send_message env int_ http_str request w = (inr body, w') ->
    exists client entity sent,
      Dict.get (MessageRequest.session_hash request) (clients (client_manager w))
        = Some client
      /\ body = JObj [("message", JStr "Message sent successfully");
                      ("message_id", JInt (Telethon.message_id sent))]
      /\ match int_ (MessageRequest.recipient request) with
         | Some n =>
             entity = Telethon.InputPeerUser n 0
             /\ log w'
                = log w ++
                  [Telethon.Ev
                     (Telethon.send_message client entity
                        (MessageRequest.message request))
                     (inr sent)]
         | None =>
             exists resolved,
               entity = Telethon.Resolved resolved
               /\ log w'
                  = log w ++
                    [Telethon.Ev
                       (Telethon.get_entity client
                          (MessageRequest.recipient request))
                       (inr resolved);
                     Telethon.Ev
                       (Telethon.send_message client entity
                          (MessageRequest.message request))
                       (inr sent)]
         end.
Proof.
  intros w request body w'.
  unfold send_message, try_except, bind, get_client, get_manager, raise, ret,
    call. cbn.
  destruct (Dict.get (MessageRequest.session_hash request)
              (clients (client_manager w))) as [client|] eqn:Hget; cbn;
    [|discriminate].
  destruct (int_ (MessageRequest.recipient request)) as [n|]; cbn.
  - destruct (env Telethon.Message _ _) as [[]|sent]; cbn; try discriminate.
    intros H. inversion H; subst; clear H.
    exists client, (Telethon.InputPeerUser n 0), sent. repeat split.
  - destruct (env Z _ _) as [[]|resolved]; cbn; try discriminate.
    destruct (env Telethon.Message _ _) as [[]|sent]; cbn; try discriminate.
    intros H. inversion H; subst; clear H.
    exists client, (Telethon.Resolved resolved), sent.
    split; [reflexivity|]. split; [reflexivity|].
    exists resolved. split; [reflexivity|]. cbn. now rewrite <- app_assoc.
Qed.

End HandlerOutcomes.

(** ** The theorems at concrete inputs *)

(** C1, as first stated ("for every handle in the store, [create_client]
    returns it, opens no connection and leaves the store unchanged"), fails
    in two ways.  In [world_credentials_reset] the handle ["10"] is in the
    store and the call raises.  In [world_blank_handle] the handle [""] is
    in the store and the call builds, connects and stores a second client. *)
Lemma create_client_registered_counterexample :
  (Dict.get "10" (clients (client_manager world_credentials_reset)) = Some 1
   /\ create_client env_ok (Some "10") world_credentials_reset
      = (inl (ValueError "API credentials not set"), world_credentials_reset))
  /\ (Dict.get "" (clients (client_manager world_blank_handle)) = Some 1
      /\ log (exec (create_client env_blank (Some "")) world_blank_handle)
         = log world_blank_handle ++
           [Telethon.Ev (Telethon.StringSession 2 None) (inr tt);
            Telethon.Ev (Telethon.TelegramClient 3 2 (Some 1%Z) (Some "x")) (inr tt);
            Telethon.Ev (Telethon.connect 3) (inr tt);
            Telethon.Ev (Telethon.save 2) (inr "");
            Telethon.Ev (Telethon.on_NewMessage 3 "/ping" "pong") (inr tt)]
      /\ clients (client_manager
                    (exec (create_client env_blank (Some "")) world_blank_handle))
         = [("", 3)]).
Proof. repeat split. Qed.

(** The session of [world_one_session], asked for again: the handle comes
    back and the world is the same. *)
Lemma create_client_registered_witness :
  Dict.get "10" (clients (client_manager world_one_session)) = Some 1
  /\ create_client env_ok (Some "10") world_one_session
     = (inr "10", world_one_session).
Proof.
  split; [reflexivity|].
  apply (create_client_registered env_ok world_one_session "10" 1);
    [reflexivity | reflexivity | discriminate | reflexivity].
Defined.

(** In the initial world both constructors raise and nothing changes. *)
Lemma create_without_credentials_witness :
  create_client env_ok (Some "1BVtsOK") init_world
    = (inl (ValueError "API credentials not set"), init_world)
  /\ create_bot_client env_ok "123:abc" init_world
    = (inl (ValueError "API credentials not set"), init_world).
Proof.
  apply (create_without_credentials env_ok init_world (Some "1BVtsOK") "123:abc").
  left. reflexivity.
Defined.

(** Credentials overwritten with [app_id = 0], and with [app_hash = ""],
    while a session is open. *)
Lemma create_with_falsy_credentials_witness :
  create_client env_ok None
    (exec (set_api_credentials (APICredentials.mk 0 "abc")) world_one_session)
  = (inl (ValueError "API credentials not set"),
     exec (set_api_credentials (APICredentials.mk 0 "abc")) world_one_session)
  /\ create_bot_client env_ok "123:abc"
       (exec (set_api_credentials (APICredentials.mk 7 "")) world_one_session)
     = (inl (ValueError "API credentials not set"),
        exec (set_api_credentials (APICredentials.mk 7 "")) world_one_session).
Proof.
  split.
  - apply (create_with_falsy_credentials env_ok world_one_session
             (APICredentials.mk 0 "abc") None "123:abc").
    left. reflexivity.
  - apply (create_with_falsy_credentials env_ok world_one_session
             (APICredentials.mk 7 "") None "123:abc").
    right. reflexivity.
Defined.

(** Two sessions: a stored handle, one never issued, one just removed. *)
Lemma get_client_spec_witness :
  get_client "12" world_two_sessions = (inr 3, world_two_sessions)
  /\ get_client "11" world_two_sessions
     = (inl (HTTPException 400 "Session not found"), world_two_sessions)
  /\ result (get_client "12") (exec (remove_client env_ok "12") world_two_sessions)
     = inl (HTTPException 400 "Session not found").
Proof.
  split; [|split].
  - apply (get_client_spec env_ok world_two_sessions "12"). reflexivity.
  - apply (get_client_spec env_ok world_two_sessions "11"). reflexivity.
  - apply (get_client_spec env_ok world_two_sessions "12"). reflexivity.
Defined.

(** Two sessions, a library that disconnects: the call returns, the store
    is empty, both clients were disconnected in store order. *)
Lemma disconnect_all_spec_witness :
  disconnect_all env_ok world_two_sessions
    = (inr tt, exec (disconnect_all env_ok) world_two_sessions)
  /\ clients (client_manager (exec (disconnect_all env_ok) world_two_sessions))
     = Dict.empty
  /\ get_client "10" (exec (disconnect_all env_ok) world_two_sessions)
     = (inl (HTTPException 400 "Session not found"),
        exec (disconnect_all env_ok) world_two_sessions)
  /\ log (exec (disconnect_all env_ok) world_two_sessions)
     = log world_two_sessions ++
       [Telethon.Ev (Telethon.disconnect 1) (inr tt);
        Telethon.Ev (Telethon.disconnect 3) (inr tt)].
Proof.
  split; [reflexivity|].
  destruct (disconnect_all_spec env_ok world_two_sessions
              (exec (disconnect_all env_ok) world_two_sessions) eq_refl)
    as (Hempty & Hget & Hlog & _).
  split; [exact Hempty|]. split; [apply Hget | exact Hlog].
Defined.

(** Removing the first of two sessions, and a handle that is not there. *)
Lemma remove_client_spec_witness :
  clients (client_manager (exec (remove_client env_ok "10") world_two_sessions))
    = [("12", 3)]
  /\ Dict.get "12"
       (clients (client_manager (exec (remove_client env_ok "10") world_two_sessions)))
     = Dict.get "12" (clients (client_manager world_two_sessions))
  /\ remove_client env_ok "11" world_two_sessions = (inr tt, world_two_sessions).
Proof.
  split; [reflexivity|]. split.
  - apply (remove_client_spec env_ok world_two_sessions "10") with (client := 1);
      [reflexivity | reflexivity | discriminate].
  - apply (remove_client_spec env_ok world_two_sessions "11"). reflexivity.
Defined.

(** The recipients ["12345"] and ["somechannel"] under the ASCII reading of
    [int]. *)
Lemma send_message_recipient_witness :
  log (exec (send_message env_ok PyInt.int starlette_str
               (MessageRequest.mk "10" "12345" "hi")) world_one_session)
    = log world_one_session ++
      [Telethon.Ev
         (Telethon.send_message 1 (Telethon.InputPeerUser 12345 0) "hi")
         (inr (Telethon.mkMessage 1))]
  /\ log (exec (send_message env_ok PyInt.int starlette_str
                  (MessageRequest.mk "10" "somechannel" "hi")) world_one_session)
     = (log world_one_session ++
        [Telethon.Ev (Telethon.get_entity 1 "somechannel") (inr 42%Z)]) ++
       [Telethon.Ev (Telethon.send_message 1 (Telethon.Resolved 42) "hi")
          (inr (Telethon.mkMessage 1))].
Proof.
  split.
  - apply (send_message_recipient env_ok PyInt.int starlette_str world_one_session
             (MessageRequest.mk "10" "12345" "hi") 1 eq_refl).
    reflexivity.
  - apply (send_message_recipient env_ok PyInt.int starlette_str world_one_session
             (MessageRequest.mk "10" "somechannel" "hi") 1 eq_refl).
    reflexivity.
Defined.

(** An account with two-step verification. *)
Lemma verify_otp_two_factor_witness :
  result (verify_otp env_two_factor starlette_str
            (OTPVerification.mk "+15550001111" "12345" "c0de")
            (SessionHash.mk "10")) world_one_session
    = inr (JObj
             [("message",
               JStr "Two-step verification is enabled. Please provide the password.");
              ("session_hash", JStr "10")])
  /\ http_status
       (result (verify_otp env_two_factor starlette_str
                  (OTPVerification.mk "+15550001111" "12345" "c0de")
                  (SessionHash.mk "10")) world_one_session)
     = 200%Z.
Proof.
  apply (verify_otp_two_factor env_two_factor starlette_str world_one_session
           (OTPVerification.mk "+15550001111" "12345" "c0de")
           (SessionHash.mk "10") 1
           "Two-steps verification is enabled and a password is required");
    reflexivity.
Defined.

(** A wrong code. *)
Lemma verify_otp_invalid_code_witness :
  result (verify_otp env_bad_code starlette_str
            (OTPVerification.mk "+15550001111" "00000" "c0de")
            (SessionHash.mk "10")) world_one_session
    = inl (HTTPException 401 "Invalid code provided.")
  /\ http_status
       (result (verify_otp env_bad_code starlette_str
                  (OTPVerification.mk "+15550001111" "00000" "c0de")
                  (SessionHash.mk "10")) world_one_session)
     = 401%Z.
Proof.
  apply (verify_otp_invalid_code env_bad_code starlette_str world_one_session
           (OTPVerification.mk "+15550001111" "00000" "c0de")
           (SessionHash.mk "10") 1 "The phone code entered was invalid");
    reflexivity.
Defined.

(** A story posted on a session nobody signed in on, with Starlette's
    [str] of the exception: status 500, detail ["401: Unauthorized. ..."]. *)
Lemma send_story_unauthorized_witness :
  send_story env_unauthorized starlette_str
    (StoryRequest.mk "uploads/a.png" true 42) (SessionHash.mk "10")
    world_one_session
  = (inl (HTTPException 500 "401: Unauthorized. Please authenticate first."),
     with_log
       (log world_one_session ++
        [Telethon.Ev (Telethon.is_user_authorized 1) (inr false)])
       world_one_session)
  /\ http_status
       (result (send_story env_unauthorized starlette_str
                  (StoryRequest.mk "uploads/a.png" true 42) (SessionHash.mk "10"))
          world_one_session)
     = 500%Z.
Proof.
  apply (send_story_unauthorized env_unauthorized starlette_str world_one_session
           (StoryRequest.mk "uploads/a.png" true 42) (SessionHash.mk "10") 1);
    reflexivity.
Defined.

(** A session resumed from a saved string that is not in the store: with a
    library that answers every call, and with one that refuses the
    handler. *)
Lemma create_client_fresh_witness :
  exec (create_client env_ok (Some "1saved")) world_configured
    = opened world_configured (Telethon.connect 1) (Some "1saved") "10"
  /\ (exists h,
        exec (create_client env_handler_fails (Some "1saved")) world_configured
        = registered_with world_configured (Telethon.connect 1)
            (Some "1saved") h (inl (LibraryError "handler rejected")))
  /\ Dict.get "10"
       (clients (client_manager
                   (exec (create_client env_handler_fails (Some "1saved"))
                      world_configured)))
     = Some 1.
Proof.
  assert (forall s, Some "1saved" = Some s -> s <> "" ->
            Dict.get s (clients (client_manager world_configured)) = None)
    as Hnew.
  { intros s [= <-] _. reflexivity. }
  split; [|split].
  - apply (proj1 (create_client_fresh env_ok world_configured
                    (Some "1saved") Hnew) "10").
    reflexivity.
  - destruct (proj2 (create_client_fresh env_handler_fails world_configured
                       (Some "1saved") Hnew)
                (LibraryError "handler rejected")
                (exec (create_client env_handler_fails (Some "1saved"))
                   world_configured)
                eq_refl) as (l & Hl & Hreg).
    cbn in Hl. subst l. apply Hreg. reflexivity.
  - reflexivity.
Defined.

(** The bot session of [world_two_sessions]. *)
Lemma create_bot_client_spec_witness :
  world_two_sessions
    = opened world_one_session (Telethon.start 3 "123:abc") None "12"
  /\ get_client "12" world_two_sessions = (inr 3, world_two_sessions).
Proof.
  apply (create_bot_client_spec env_ok world_one_session "123:abc" "12"
           world_two_sessions).
  reflexivity.
Defined.

(** The first session, looked up right after it was created. *)
Lemma created_handle_resolves_witness :
  exists client : Obj,
    get_client "10" world_one_session = (inr client, world_one_session)
    /\ (@None string = Some "10" /\ "10" <> ""
        /\ Dict.get "10" (clients (client_manager world_configured))
           = Some client
        \/ client = 1).
Proof.
  apply (created_handle_resolves env_ok world_configured None "10"
           world_one_session).
  reflexivity.
Defined.

(** One session created, then removed. *)
Lemma create_then_remove_witness :
  (forall k,
     Dict.get k
       (clients (client_manager
                   (exec (remove_client env_ok "10") world_one_session)))
     = Dict.get k (clients (client_manager world_configured)))
  /\ log (exec (remove_client env_ok "10") world_one_session)
     = log world_one_session ++
       [Telethon.Ev (Telethon.disconnect 1) (inr tt)].
Proof.
  apply (create_then_remove env_ok world_configured None "10" world_one_session
           (exec (remove_client env_ok "10") world_one_session));
    reflexivity.
Defined.

(** The network is down: the store is as it was.  The handler registration
    is refused: the client is stored, under ["10"]. *)
Lemma create_client_raises_witness :
  clients (client_manager (exec (create_client env_offline None) world_configured))
    = clients (client_manager world_configured)
  /\ (exists h l0,
        [Telethon.Ev (Telethon.StringSession 0 None) (inr tt);
         Telethon.Ev (Telethon.TelegramClient 1 0 (Some 1%Z) (Some "x")) (inr tt);
         Telethon.Ev (Telethon.connect 1) (inr tt);
         Telethon.Ev (Telethon.save 0) (inr "10");
         Telethon.Ev (Telethon.on_NewMessage 1 "/ping" "pong")
           (inl (LibraryError "handler rejected"))]
        = l0 ++ [Telethon.Ev (Telethon.save 0) (inr h);
                 Telethon.Ev (Telethon.on_NewMessage 1 "/ping" "pong")
                   (inl (LibraryError "handler rejected"))]
        /\ clients (client_manager
                      (exec (create_client env_handler_fails None)
                         world_configured))
           = Dict.set h 1 (clients (client_manager world_configured))
        /\ get_client h
             (exec (create_client env_handler_fails None) world_configured)
           = (inr 1,
              exec (create_client env_handler_fails None) world_configured))
  /\ clients (client_manager
                (exec (create_client env_handler_fails None) world_configured))
     = [("10", 1)].
Proof.
  split; [|split].
  - destruct (create_client_raises env_offline world_configured None
                (LibraryError "Connection refused")
                (exec (create_client env_offline None) world_configured)
                eq_refl) as (l & Hl & Hno & _).
    cbn in Hl. subst l. apply Hno. reflexivity.
  - destruct (create_client_raises env_handler_fails world_configured None
                (LibraryError "handler rejected")
                (exec (create_client env_handler_fails None) world_configured)
                eq_refl) as (l & Hl & _ & Hyes).
    cbn in Hl. subst l. apply Hyes. reflexivity.
  - reflexivity.
Defined.

(** Two sessions; the second client cannot be disconnected. *)
Lemma disconnect_all_stops_at_failure_witness :
  client_manager (exec (disconnect_all env_disconnect_fails) world_two_sessions)
    = client_manager world_two_sessions
  /\ exists done client rest,
       Dict.values (clients (client_manager world_two_sessions))
         = done ++ client :: rest
       /\ log (exec (disconnect_all env_disconnect_fails) world_two_sessions)
          = log world_two_sessions ++
            map (fun c => Telethon.Ev (Telethon.disconnect c) (inr tt)) done
            ++ [Telethon.Ev (Telethon.disconnect client)
                  (inl (LibraryError "Connection reset"))].
Proof.
  apply (disconnect_all_stops_at_failure env_disconnect_fails world_two_sessions
           (LibraryError "Connection reset")
           (exec (disconnect_all env_disconnect_fails) world_two_sessions)).
  reflexivity.
Defined.

(** Credentials set in the initial world, then a bot session. *)
Lemma credentials_reach_library_witness :
  1%Z <> 0%Z
  /\ "x" <> ""
  /\ In (Telethon.Ev (Telethon.TelegramClient 1 0 (Some 1%Z) (Some "x")) (inr tt))
       (log (exec (create_bot_client env_ok "123:abc") world_configured)).
Proof.
  apply (credentials_reach_library env_ok init_world (APICredentials.mk 1 "x")
           "123:abc" "10"
           (exec (create_bot_client env_ok "123:abc") world_configured)).
  reflexivity.
Defined.

(** A wrong password, and a right one. *)
Lemma verify_2fa_spec_witness :
  result (verify_2fa env_bad_password starlette_str
            (TwoFAPassword.mk "hunter2" "10")) world_one_session
    = inl (HTTPException 500 "The password you entered is invalid")
  /\ result (verify_2fa env_ok starlette_str
               (TwoFAPassword.mk "hunter2" "10")) world_one_session
     = inr (JObj [("message", JStr "Authenticated as Ada");
                  ("session_hash", JStr "10")]).
Proof.
  split.
  - unfold result.
    rewrite (proj1 (verify_2fa_spec env_bad_password starlette_str
                      world_one_session (TwoFAPassword.mk "hunter2" "10") 1
                      eq_refl)
               (LibraryError "The password you entered is invalid") eq_refl).
    reflexivity.
  - unfold result.
    rewrite (proj2 (verify_2fa_spec env_ok starlette_str
                      world_one_session (TwoFAPassword.mk "hunter2" "10") 1
                      eq_refl)
               (Telethon.mkUser 777 "Ada" (Some "ada") false) eq_refl eq_refl).
    reflexivity.
Defined.

(** A right code on an account without a second step. *)
Lemma verify_otp_authenticated_witness :
  result (verify_otp env_ok starlette_str
            (OTPVerification.mk "+15550001111" "12345" "c0de")
            (SessionHash.mk "10")) world_one_session
  = inr (JObj [("message", JStr "Authenticated as Ada");
               ("session_hash", JStr "10")]).
Proof.
  unfold result.
  rewrite (proj1 (verify_otp_authenticated env_ok starlette_str
                    world_one_session
                    (OTPVerification.mk "+15550001111" "12345" "c0de")
                    (SessionHash.mk "10") 1 eq_refl)
             (Telethon.mkUser 777 "Ada" (Some "ada") false) eq_refl eq_refl).
  reflexivity.
Defined.

(** A story posted on an authorized session. *)
Lemma send_story_posted_witness :
  JObj [("message", JStr "Story sent successfully")]
    = JObj [("message", JStr "Story sent successfully")]
  /\ exists client me file,
       Dict.get "10" (clients (client_manager world_one_session)) = Some client
       /\ exec (send_story env_ok starlette_str
                  (StoryRequest.mk "uploads/a.png" true 42) (SessionHash.mk "10"))
            world_one_session
          = with_log
              (log world_one_session ++
               [Telethon.Ev (Telethon.is_user_authorized client) (inr true);
                Telethon.Ev (Telethon.get_me client) (inr me);
                Telethon.Ev (Telethon.upload_file client "uploads/a.png")
                  (inr file);
                Telethon.Ev
                  (Telethon.SendStoryRequest client (Telethon.id me) file true 42)
                  (inr tt)])
              world_one_session.
Proof.
  apply (send_story_posted env_ok starlette_str world_one_session
           (StoryRequest.mk "uploads/a.png" true 42) (SessionHash.mk "10")
           (JObj [("message", JStr "Story sent successfully")])
           (exec (send_story env_ok starlette_str
                    (StoryRequest.mk "uploads/a.png" true 42)
                    (SessionHash.mk "10"))
              world_one_session)).
  reflexivity.
Defined.

(** The example of the specification: credentials, then a session. *)
Lemma create_session_ok_witness :
  exists h sent,
    JObj [("session_hash", JStr "10"); ("phone_code_hash", JStr "c0de")]
      = JObj [("session_hash", JStr h);
              ("phone_code_hash", JStr (Telethon.phone_code_hash sent))]
    /\ exec (create_session env_ok starlette_str (PhoneNumber.mk "+15550001111"))
         world_configured
       = with_log
           (log (opened world_configured (Telethon.connect 1) None h) ++
            [Telethon.Ev (Telethon.send_code_request 1 "+15550001111" true)
               (inr sent)])
           (opened world_configured (Telethon.connect 1) None h)
    /\ get_client h
         (exec (create_session env_ok starlette_str
                  (PhoneNumber.mk "+15550001111")) world_configured)
       = (inr 1,
          exec (create_session env_ok starlette_str
                  (PhoneNumber.mk "+15550001111")) world_configured).
Proof.
  apply (create_session_ok env_ok starlette_str world_configured
           (PhoneNumber.mk "+15550001111")
           (JObj [("session_hash", JStr "10"); ("phone_code_hash", JStr "c0de")])
           (exec (create_session env_ok starlette_str
                    (PhoneNumber.mk "+15550001111")) world_configured)).
  reflexivity.
Defined.

(** Too many attempts: no code is sent, yet the session stays. *)
Lemma create_session_failed_request_witness :
  create_session env_flood starlette_str (PhoneNumber.mk "+15550001111")
    world_configured
  = (inl (HTTPException 500 "A wait of 3600 seconds is required"),
     with_log
       (log (exec (create_client env_flood None) world_configured) ++
        [Telethon.Ev (Telethon.send_code_request 1 "+15550001111" true)
           (inl (LibraryError "A wait of 3600 seconds is required"))])
       (exec (create_client env_flood None) world_configured))
  /\ get_client "10"
       (with_log
          (log (exec (create_client env_flood None) world_configured) ++
           [Telethon.Ev (Telethon.send_code_request 1 "+15550001111" true)
              (inl (LibraryError "A wait of 3600 seconds is required"))])
          (exec (create_client env_flood None) world_configured))
     = (inr 1,
        with_log
          (log (exec (create_client env_flood None) world_configured) ++
           [Telethon.Ev (Telethon.send_code_request 1 "+15550001111" true)
              (inl (LibraryError "A wait of 3600 seconds is required"))])
          (exec (create_client env_flood None) world_configured)).
Proof.
  apply (create_session_failed_request env_flood starlette_str world_configured
           (PhoneNumber.mk "+15550001111") "10"
           (exec (create_client env_flood None) world_configured)
           (LibraryError "A wait of 3600 seconds is required"));
    reflexivity.
Defined.

(** A bot session from a token. *)
Lemma create_bot_session_ok_witness :
  exists h bot_info,
    JObj [("session_hash", JStr "10");
          ("bot_info",
           JObj [("id", JInt 777); ("first_name", JStr "Ada");
                 ("username", JStr "ada"); ("bot", JBool false)])]
      = JObj [("session_hash", JStr h);
              ("bot_info",
               JObj [("id", JInt (Telethon.id bot_info));
                     ("first_name", JStr (Telethon.first_name bot_info));
                     ("username",
                      match Telethon.username bot_info with
                      | Some u => JStr u
                      | None => JNull
                      end);
                     ("bot", JBool (Telethon.bot bot_info))])]
    /\ exec (create_bot_session env_ok starlette_str (BotToken.mk "123:abc"))
         world_configured
       = with_log
           (log (opened world_configured (Telethon.start 1 "123:abc") None h) ++
            [Telethon.Ev (Telethon.get_me 1) (inr bot_info)])
           (opened world_configured (Telethon.start 1 "123:abc") None h)
    /\ get_client h
         (exec (create_bot_session env_ok starlette_str (BotToken.mk "123:abc"))
            world_configured)
       = (inr 1,
          exec (create_bot_session env_ok starlette_str (BotToken.mk "123:abc"))
            world_configured).
Proof.
  apply (create_bot_session_ok env_ok starlette_str world_configured
           (BotToken.mk "123:abc")
           (JObj [("session_hash", JStr "10");
                  ("bot_info",
                   JObj [("id", JInt 777); ("first_name", JStr "Ada");
                         ("username", JStr "ada"); ("bot", JBool false)])])
           (exec (create_bot_session env_ok starlette_str (BotToken.mk "123:abc"))
              world_configured)).
  reflexivity.
Defined.

(** A channel name nobody has. *)
Lemma send_message_lookup_fails_witness :
  send_message env_no_entity PyInt.int starlette_str
    (MessageRequest.mk "10" "somechannel" "hi") world_one_session
  = (inl (HTTPException 400 "Cannot find any entity corresponding to the name"),
     with_log
       (log world_one_session ++
        [Telethon.Ev (Telethon.get_entity 1 "somechannel")
           (inl (ValueError "Cannot find any entity corresponding to the name"))])
       world_one_session).
Proof.
  apply (send_message_lookup_fails env_no_entity PyInt.int starlette_str
           world_one_session (MessageRequest.mk "10" "somechannel" "hi") 1
           (ValueError "Cannot find any entity corresponding to the name"));
    reflexivity.
Defined.

(** A message to a numeric id. *)
Lemma send_message_sent_witness :
  exists client entity sent,
    Dict.get "10" (clients (client_manager world_one_session)) = Some client
    /\ JObj [("message", JStr "Message sent successfully");
             ("message_id", JInt 1)]
       = JObj [("message", JStr "Message sent successfully");
               ("message_id", JInt (Telethon.message_id sent))]
    /\ (entity = Telethon.InputPeerUser 12345 0
        /\ log (exec (send_message env_ok PyInt.int starlette_str
                        (MessageRequest.mk "10" "12345" "hi")) world_one_session)
           = log world_one_session ++
             [Telethon.Ev (Telethon.send_message client entity "hi") (inr sent)]).
Proof.
  apply (send_message_sent env_ok PyInt.int starlette_str world_one_session
           (MessageRequest.mk "10" "12345" "hi")
           (JObj [("message", JStr "Message sent successfully");
                  ("message_id", JInt 1)])
           (exec (send_message env_ok PyInt.int starlette_str
                    (MessageRequest.mk "10" "12345" "hi")) world_one_session)).
  reflexivity.
Defined.

(** A handle nobody was given, on a server with one session: the lookup
    says 400, the four endpoints say 500. *)
Lemma unknown_session_answers_500_witness :
  get_client "nope" world_one_session
    = (inl (HTTPException 400 "Session not found"), world_one_session)
  /\ (forall password,
        verify_2fa env_ok starlette_str (TwoFAPassword.mk password "nope")
          world_one_session
        = (inl (HTTPException 500 "400: Session not found"), world_one_session))
  /\ (forall otp,
        verify_otp env_ok starlette_str otp (SessionHash.mk "nope")
          world_one_session
        = (inl (HTTPException 500 "400: Session not found"), world_one_session))
  /\ (forall story,
        send_story env_ok starlette_str story (SessionHash.mk "nope")
          world_one_session
        = (inl (HTTPException 500 "400: Session not found"), world_one_session))
  /\ (forall recipient message,
        send_message env_ok PyInt.int starlette_str
          (MessageRequest.mk "nope" recipient message) world_one_session
        = (inl (HTTPException 500 "400: Session not found"), world_one_session))
  /\ http_status
       (@inl Exn Json (HTTPException 500 "400: Session not found")) = 500%Z.
Proof.
  apply (unknown_session_answers_500 env_ok PyInt.int starlette_str
           world_one_session "nope").
  reflexivity.
Defined.
